(** * User registration and lookup handlers (handlers_cr.go)

    A shallow embedding of [CreateUser] and [GetUser] from
    [src/handlers_cr.go], together with the parts of the Go standard
    library the two handlers lean on: byte strings and UTF-8 decoding,
    [strings.TrimSpace], an anchored regular-expression match,
    [time.Time.Format(time.RFC3339)], a [http.ResponseWriter] and the
    three SQL statements sent through [database/sql]. *)

From Stdlib Require Import ZArith List Ascii String Bool Lia.
From Stdlib Require Import Numbers.DecimalString.
From stdpp Require Import gmap strings.
Import ListNotations.

Local Open Scope Z_scope.

(** ** Go strings: byte sequences *)

Module GoString.

(** A Go [string] is a sequence of bytes; Rocq's [string] is a list of
    [ascii], one per byte. *)
Definition bytes (s : string) : list ascii := list_ascii_of_string s.

Definition byte_val (a : ascii) : Z := Z.of_N (N_of_ascii a).

(** The builtin [len(s)]: the number of BYTES of [s]. *)
Definition len (s : string) : Z := Z.of_nat (String.length s).

(** [fmt.Sprintf("hashed_%s", p)] *)
Definition Sprintf_hashed (p : string) : string := String.append "hashed_" p.

End GoString.

(** ** unicode/utf8 *)

Module utf8.
Import GoString.

Definition RuneError : Z := 65533.
Definition RuneSelf : Z := 128.

(** The [first] table of the package: for a leading byte, the length of
    the sequence it opens and the range accepted for the second byte;
    [None] is the table's [xx] (a byte that opens nothing). *)
Definition first (b0 : Z) : option (nat * (Z * Z)) :=
  if (194 <=? b0) && (b0 <=? 223) then Some (2%nat, (128, 191))
  else if b0 =? 224 then Some (3%nat, (160, 191))
  else if (225 <=? b0) && (b0 <=? 236) then Some (3%nat, (128, 191))
  else if b0 =? 237 then Some (3%nat, (128, 159))
  else if (238 <=? b0) && (b0 <=? 239) then Some (3%nat, (128, 191))
  else if b0 =? 240 then Some (4%nat, (144, 191))
  else if (241 <=? b0) && (b0 <=? 243) then Some (4%nat, (128, 191))
  else if b0 =? 244 then Some (4%nat, (128, 143))
  else None.

Definition within (lo hi b : Z) : bool := (lo <=? b) && (b <=? hi).
Definition is_cont (b : Z) : bool := within 128 191 b.
Definition low6 (b : Z) : Z := Z.land b 63.

(** [utf8.DecodeRuneInString]: the first rune of the input and its
    width in bytes; a malformed sequence is [RuneError] of width 1. *)
Definition DecodeRune (s : list ascii) : Z * nat :=
  match s with
  | [] => (RuneError, 0%nat)
  | a0 :: rest =>
    let s0 := byte_val a0 in
    if s0 <? RuneSelf then (s0, 1%nat)
    else
      match first s0 with
      | None => (RuneError, 1%nat)
      | Some (sz, (lo, hi)) =>
        match rest with
        | [] => (RuneError, 1%nat)
        | a1 :: rest1 =>
          let s1 := byte_val a1 in
          if negb (within lo hi s1) then (RuneError, 1%nat)
          else if (sz <=? 2)%nat
          then (Z.lor (Z.shiftl (Z.land s0 31) 6) (low6 s1), 2%nat)
          else
            match rest1 with
            | [] => (RuneError, 1%nat)
            | a2 :: rest2 =>
              let s2 := byte_val a2 in
              if negb (is_cont s2) then (RuneError, 1%nat)
              else if (sz <=? 3)%nat
              then (Z.lor (Z.shiftl (Z.land s0 15) 12)
                      (Z.lor (Z.shiftl (low6 s1) 6) (low6 s2)), 3%nat)
              else
                match rest2 with
                | [] => (RuneError, 1%nat)
                | a3 :: _ =>
                  let s3 := byte_val a3 in
                  if negb (is_cont s3) then (RuneError, 1%nat)
                  else (Z.lor (Z.shiftl (Z.land s0 7) 18)
                          (Z.lor (Z.shiftl (low6 s1) 12)
                             (Z.lor (Z.shiftl (low6 s2) 6) (low6 s3))), 4%nat)
                end
            end
        end
      end
  end.

(** The runes of a string, each with the bytes that encode it.  [skip]
    counts the bytes still owned by the rune decoded last. *)
Fixpoint runes_from (skip : nat) (s : list ascii) : list (Z * list ascii) :=
  match s with
  | [] => []
  | _ :: rest =>
    match skip with
    | S k => runes_from k rest
    | O =>
      let '(r, w) := DecodeRune s in
      (r, firstn w s) :: runes_from (w - 1) rest
    end
  end.

Definition runes (s : string) : list (Z * list ascii) :=
  runes_from 0 (bytes s).

(** [utf8.RuneCountInString]: the length of a string in characters. *)
Definition RuneCountInString (s : string) : Z :=
  Z.of_nat (List.length (runes s)).

End utf8.

(** ** strings.TrimSpace *)

Module strings.
Import GoString.

(** [unicode.IsSpace]: the White_Space property. *)
Definition IsSpace (r : Z) : bool :=
  ((9 <=? r) && (r <=? 13)) || (r =? 32) || (r =? 133) || (r =? 160)
  || (r =? 5760) || ((8192 <=? r) && (r <=? 8202))
  || (r =? 8232) || (r =? 8233) || (r =? 8239) || (r =? 8287)
  || (r =? 12288).

Fixpoint TrimLeft (rs : list (Z * list ascii)) : list (Z * list ascii) :=
  match rs with
  | [] => []
  | (r, bs) :: rest => if IsSpace r then TrimLeft rest else rs
  end.

Definition TrimRight (rs : list (Z * list ascii)) : list (Z * list ascii) :=
  rev (TrimLeft (rev rs)).

(** [strings.TrimSpace]: the input without its leading and trailing
    white-space runes. *)
Definition TrimSpace (s : string) : string :=
  string_of_list_ascii
    (concat (map snd (TrimRight (TrimLeft (utf8.runes s))))).

End strings.

(** ** regexp: the pattern language used by the handler *)

Module regexp.

(** One item of a bracket expression. *)
Inductive ClassItem : Type :=
| Range (lo hi : ascii)
| Single (c : ascii).

Definition item_has (a : ascii) (it : ClassItem) : bool :=
  match it with
  | Range lo hi =>
    (N_of_ascii lo <=? N_of_ascii a)%N && (N_of_ascii a <=? N_of_ascii hi)%N
  | Single c => Ascii.eqb a c
  end.

Definition class_has (cls : list ClassItem) (a : ascii) : bool :=
  existsb (item_has a) cls.

Inductive Regexp : Type :=
| NoMatch
| EmptyMatch
| CharClass (cls : list ClassItem)
| Concat (r1 r2 : Regexp)
| Alternate (r1 r2 : Regexp)
| Star (r : Regexp).

Definition Literal (c : ascii) : Regexp := CharClass [Single c].
(** [r+] *)
Definition Plus (r : Regexp) : Regexp := Concat r (Star r).
(** [r{2,}] *)
Definition AtLeast2 (r : Regexp) : Regexp := Concat r (Concat r (Star r)).

(** The language of an expression. *)
Inductive Matches : Regexp -> list ascii -> Prop :=
| MEmpty : Matches EmptyMatch []
| MClass cls a : class_has cls a = true -> Matches (CharClass cls) [a]
| MConcat r1 r2 s1 s2 :
    Matches r1 s1 -> Matches r2 s2 -> Matches (Concat r1 r2) (s1 ++ s2)
| MAltL r1 r2 s : Matches r1 s -> Matches (Alternate r1 r2) s
| MAltR r1 r2 s : Matches r2 s -> Matches (Alternate r1 r2) s
| MStarNil r : Matches (Star r) []
| MStarApp r s1 s2 :
    Matches r s1 -> Matches (Star r) s2 -> Matches (Star r) (s1 ++ s2).

Fixpoint nullable (r : Regexp) : bool :=
  match r with
  | NoMatch => false
  | EmptyMatch => true
  | CharClass _ => false
  | Concat r1 r2 => nullable r1 && nullable r2
  | Alternate r1 r2 => nullable r1 || nullable r2
  | Star _ => true
  end.

Fixpoint deriv (a : ascii) (r : Regexp) : Regexp :=
  match r with
  | NoMatch => NoMatch
  | EmptyMatch => NoMatch
  | CharClass cls => if class_has cls a then EmptyMatch else NoMatch
  | Concat r1 r2 =>
    if nullable r1
    then Alternate (Concat (deriv a r1) r2) (deriv a r2)
    else Concat (deriv a r1) r2
  | Alternate r1 r2 => Alternate (deriv a r1) (deriv a r2)
  | Star r1 => Concat (deriv a r1) (Star r1)
  end.

(** A match of the whole input (the pattern is anchored by [^] and [$],
    and [$] without the [m] flag is the end of the text). *)
Fixpoint match_all (r : Regexp) (s : list ascii) : bool :=
  match s with
  | [] => nullable r
  | a :: rest => match_all (deriv a r) rest
  end.

Definition MatchString (r : Regexp) (s : string) : bool :=
  match_all r (GoString.bytes s).

End regexp.

(** ** time: instants, their zone and their RFC 3339 rendering *)

Module time.

(** A [time.Time]: an instant, as nanoseconds since the Unix epoch, and
    the offset, in seconds east of UTC, that the value's [Location] has
    at that instant.  [time.Now()] carries the offset of the local zone,
    a timestamp scanned from the store the one the driver attached. *)
Record Time : Type := mkTime {
  Instant : Z;
  Offset : Z
}.

(** An instant located in UTC. *)
Definition UTC (nanoseconds : Z) : Time := mkTime nanoseconds 0.

Definition Second : Z := 1000000000.

Definition Unix (t : Time) : Z := Instant t / Second.

(** Seconds since the epoch on the wall clock of the value's zone. *)
Definition wall (t : Time) : Z := Unix t + Offset t.

(** Days since the epoch to (year, month, day) of the proleptic
    Gregorian calendar. *)
Definition civil (days : Z) : Z * Z * Z :=
  let z := days + 719468 in
  let era := z / 146097 in
  let doe := z - era * 146097 in
  let yoe := (doe - doe / 1460 + doe / 36524 - doe / 146096) / 365 in
  let doy := doe - (365 * yoe + yoe / 4 - yoe / 100) in
  let mp := (5 * doy + 2) / 153 in
  let d := doy - (153 * mp + 2) / 5 + 1 in
  let m := if mp <? 10 then mp + 3 else mp - 9 in
  let y := yoe + era * 400 in
  (if m <=? 2 then y + 1 else y, m, d).

(** [t.Year()] *)
Definition Year (t : Time) : Z := (civil (wall t / 86400)).1.1.

Definition digit (n : Z) : ascii := ascii_of_N (Z.to_N (48 + n mod 10)).

(** The decimal digits of [u >= 0], most significant first, as the loop
    of [appendInt] assembles them. *)
Fixpoint digits_from (fuel : nat) (u : Z) (acc : list ascii) : list ascii :=
  match fuel with
  | O => acc
  | S fuel' =>
    if u <? 10 then digit u :: acc
    else digits_from fuel' (u / 10) (digit u :: acc)
  end.

Definition decimal (u : Z) : list ascii :=
  digits_from (S (Z.to_nat (Z.log2 u))) u [].

(** [appendInt(b, x, width)]: a minus sign for a negative [x], then the
    decimal form of its absolute value, padded with zeros on the left up
    to [width] digits and never cut. *)
Definition appendInt (x : Z) (width : nat) : string :=
  let ds := decimal (Z.abs x) in
  string_of_list_ascii
    ((if x <? 0 then ["-"%char] else []) ++
     repeat "0"%char (width - List.length ds) ++ ds).

(** The zone of the layout element [Z07:00]: [Z] for offset zero, else
    the sign and the offset as hours and minutes. *)
Definition zone_suffix (offset : Z) : string :=
  if offset =? 0 then "Z"%string
  else
    let zone := Z.quot offset 60 in
    String.concat ""%string
      [if zone <? 0 then "-"%string else "+"%string;
       appendInt (Z.abs zone / 60) 2; ":"%string;
       appendInt (Z.abs zone mod 60) 2].

(** [t.Format(time.RFC3339)], layout [2006-01-02T15:04:05Z07:00]: date
    and time on the wall clock of the value's zone, then the zone. *)
Definition Format_RFC3339 (t : Time) : string :=
  let '(y, m, d) := civil (wall t / 86400) in
  let sod := wall t mod 86400 in
  String.concat ""%string
    [appendInt y 4; "-"%string; appendInt m 2; "-"%string; appendInt d 2;
     "T"%string;
     appendInt (sod / 3600) 2; ":"%string;
     appendInt (sod mod 3600 / 60) 2; ":"%string;
     appendInt (sod mod 60) 2; zone_suffix (Offset t)].

End time.

(** ** encoding/json *)

Module json.

(** A value placed in a response map. *)
Inductive Value : Type :=
| Int (n : Z)
| Str (s : string).

#[global] Instance Value_eq_dec : EqDecision Value.
Proof. solve_decision. Defined.

(** The anonymous struct [request] that [CreateUser] decodes into. *)
Record CreateRequest : Type := mkCreateRequest {
  Email : string;
  Password : string;
  Name : string;
  Age : Z
}.

(** What [json.NewDecoder(r.Body).Decode(&request)] makes of a request
    body: an error, or the struct it filled. *)
Inductive Decoded : Type :=
| SyntaxError
| Filled (request : CreateRequest).

End json.

(** ** net/http *)

Module http.

Definition StatusOK : Z := 200.
Definition StatusCreated : Z := 201.
Definition StatusBadRequest : Z := 400.
Definition StatusNotFound : Z := 404.
Definition StatusConflict : Z := 409.
Definition StatusInternalServerError : Z := 500.

(** [url.Values] *)
Definition Values_Get (q : gmap string (list string)) (key : string) : string :=
  match q !! key with
  | Some (v :: _) => v
  | _ => ""%string
  end.

(** A request as the handlers read it: the body through the JSON
    decoder, the URL through its parsed query. *)
Record Request : Type := mkRequest {
  Body : json.Decoded;
  Query : gmap string (list string)
}.

(** [http.ResponseWriter].  [Header] is the live header map; the
    first [WriteHeader] fixes the status together with the header map
    as it stands then, and [Written] collects what was encoded. *)
Record ResponseWriter : Type := mkResponseWriter {
  Header : gmap string string;
  Wrote : option (Z * gmap string string);
  Written : list (gmap string json.Value)
}.

Definition NewResponseWriter : ResponseWriter :=
  {| Header := ∅; Wrote := None; Written := [] |}.

(** [w.Header().Set(k, v)] *)
Definition Header_Set (k v : string) (w : ResponseWriter) : ResponseWriter :=
  {| Header := <[k := v]> (Header w); Wrote := Wrote w; Written := Written w |}.

(** [w.WriteHeader(code)]; a second call changes nothing. *)
Definition WriteHeader (code : Z) (w : ResponseWriter) : ResponseWriter :=
  match Wrote w with
  | Some _ => w
  | None =>
    {| Header := Header w; Wrote := Some (code, Header w); Written := Written w |}
  end.

(** [w.Write], reached through [json.NewEncoder(w).Encode(v)]: writes
    the header with [StatusOK] when none was written yet. *)
Definition Write (v : gmap string json.Value) (w : ResponseWriter) : ResponseWriter :=
  let w' := WriteHeader StatusOK w in
  {| Header := Header w'; Wrote := Wrote w'; Written := Written w' ++ [v] |}.

(** What the client receives. *)
Record Response : Type := mkResponse {
  StatusCode : Z;
  RespHeader : gmap string string;
  RespBody : list (gmap string json.Value)
}.

(** The server finishes the response when the handler returns.
    [RespHeader] is the header map as the handler left it when the
    header was written.  (A [Content-Type] the handler did not set is
    later guessed by the server from the first bytes of the body; the
    guess is one of the sniffed media types, which do not include
    [application/json].) *)
Definition finish (w : ResponseWriter) : Response :=
  match Wrote w with
  | Some (code, h) =>
    {| StatusCode := code; RespHeader := h; RespBody := Written w |}
  | None =>
    {| StatusCode := StatusOK; RespHeader := Header w; RespBody := Written w |}
  end.

End http.

(** ** database/sql *)

Module sql.

Inductive error : Type :=
| ErrNoRows
| DriverError (text : string).

(** [err.Error()], what [%v] prints. *)
Definition Error (e : error) : string :=
  match e with
  | ErrNoRows => "sql: no rows in result set"%string
  | DriverError text => text
  end.

(** The outcome of [QueryRow(...).Scan(...)]. *)
Inductive Scan (A : Type) : Type :=
| Scanned (a : A)
| Failed (e : error).
Arguments Scanned {A} a.
Arguments Failed {A} e.

(** The five columns read by [GetUser]. *)
Record UserColumns : Type := mkUserColumns {
  col_id : Z;
  col_email : string;
  col_name : string;
  col_age : Z;
  col_created_at : time.Time
}.

(** The three statements the handlers send, with their arguments. *)
Inductive Statement : Type :=
| SelectIDByEmail (email : string)
| InsertUser (email password_hash name : string) (age : Z)
             (created_at : time.Time)
| SelectUserByID (id : string).

(** The database behind [h.db], seen through the three statements.
    The two SELECTs read, the INSERT may change the database. *)
Class Store (DB : Type) : Type := {
  (** [SELECT id FROM users WHERE email = $1] *)
  select_id_by_email : DB -> string -> Scan Z;
  (** [INSERT INTO users (email, password_hash, name, age, created_at)
      VALUES ($1, $2, $3, $4, $5) RETURNING id] *)
  insert_user : DB -> string -> string -> string -> Z -> time.Time -> DB * Scan Z;
  (** [SELECT id, email, name, age, created_at FROM users WHERE id = $1] *)
  select_user_by_id : DB -> string -> Scan UserColumns
}.

End sql.

(** ** The handlers *)

Module handlers.
Import GoString regexp json http sql.

(** Everything outside the handler that a call can read or change:
    the database, the wall clock ([Clock n] is what the [n]-th call of
    [time.Now()] returns), the statements sent so far and the lines
    printed by [log.Printf]. *)
Record World (DB : Type) : Type := mkWorld {
  Db : DB;
  Clock : nat -> time.Time;
  Ticks : nat;
  Sent : list Statement;
  Log : list string
}.
Arguments mkWorld {DB} _ _ _ _ _.
Arguments Db {DB} _.
Arguments Clock {DB} _.
Arguments Ticks {DB} _.
Arguments Sent {DB} _.
Arguments Log {DB} _.

(** A handler step: it sees the response writer and the world. *)
Definition M (DB : Type) (A : Type) : Type :=
  ResponseWriter * World DB -> A * (ResponseWriter * World DB).

#[global] Instance M_ret {DB} : MRet (M DB) := fun A a st => (a, st).
#[global] Instance M_bind {DB} : MBind (M DB) :=
  fun A B f m st => let '(a, st') := m st in f a st'.

Section Ops.
Context {DB : Type} `{Store DB}.

Definition on_writer (f : ResponseWriter -> ResponseWriter) : M DB unit :=
  fun '(w, env) => (tt, (f w, env)).

Definition w_Header_Set (k v : string) : M DB unit :=
  on_writer (Header_Set k v).

Definition w_WriteHeader (code : Z) : M DB unit :=
  on_writer (WriteHeader code).

(** [json.NewEncoder(w).Encode(v)] *)
Definition Encode (v : gmap string Value) : M DB unit :=
  on_writer (Write v).

(** [time.Now()] *)
Definition time_Now : M DB time.Time :=
  fun '(w, env) =>
    (Clock env (Ticks env),
     (w, mkWorld (Db env) (Clock env) (S (Ticks env)) (Sent env) (Log env))).

(** [log.Printf("Database error: %v", err)] *)
Definition log_Database_error (err : error) : M DB unit :=
  fun '(w, env) =>
    (tt, (w, mkWorld (Db env) (Clock env) (Ticks env) (Sent env)
               (Log env ++ [String.append "Database error: " (Error err)]))).

Definition sent (q : Statement) (db' : DB) (env : World DB) : World DB :=
  mkWorld db' (Clock env) (Ticks env) (Sent env ++ [q]) (Log env).

Definition QueryRow_select_id (email : string) : M DB (Scan Z) :=
  fun '(w, env) =>
    (select_id_by_email (Db env) email,
     (w, sent (SelectIDByEmail email) (Db env) env)).

Definition QueryRow_insert (email hash name : string) (age : Z)
    (created_at : time.Time) : M DB (Scan Z) :=
  fun '(w, env) =>
    let '(db', res) := insert_user (Db env) email hash name age created_at in
    (res, (w, sent (InsertUser email hash name age created_at) db' env)).

Definition QueryRow_select_user (id : string) : M DB (Scan UserColumns) :=
  fun '(w, env) =>
    (select_user_by_id (Db env) id,
     (w, sent (SelectUserByID id) (Db env) env)).

(** [map[string]string{"error": msg}] *)
Definition error_body (msg : string) : gmap string Value :=
  {[ "error"%string := Str msg ]}.

(** [^[a-zA-Z0-9._%+\-]+@[a-zA-Z0-9.\-]+\.[a-zA-Z]{2,}$] *)
Definition emailRegex : Regexp :=
  Concat
    (Plus (CharClass [Range "a" "z"; Range "A" "Z"; Range "0" "9";
                      Single "."; Single "_"; Single "%"; Single "+";
                      Single "-"]))
    (Concat (Literal "@")
       (Concat
          (Plus (CharClass [Range "a" "z"; Range "A" "Z"; Range "0" "9";
                            Single "."; Single "-"]))
          (Concat (Literal ".")
             (AtLeast2 (CharClass [Range "a" "z"; Range "A" "Z"]))))).

Definition CreateUser (r : Request) : M DB unit :=
  match Body r with
  | SyntaxError =>
    w_WriteHeader StatusBadRequest ;;
    Encode (error_body "Invalid JSON")
  | Filled request =>
    if negb (MatchString emailRegex (Email request)) then
      w_WriteHeader StatusBadRequest ;;
      Encode (error_body "Invalid email format")
    else if len (Password request) <? 8 then
      w_WriteHeader StatusBadRequest ;;
      Encode (error_body "Password must be at least 8 characters")
    else if String.eqb (strings.TrimSpace (Name request)) "" then
      w_WriteHeader StatusBadRequest ;;
      Encode (error_body "Name is required")
    else if (Age request <? 18) || (Age request >? 120) then
      w_WriteHeader StatusBadRequest ;;
      Encode (error_body "Age must be between 18 and 120")
    else
      existing ← QueryRow_select_id (Email request) ;
      match existing with
      | Failed (DriverError text) =>
        log_Database_error (DriverError text) ;;
        w_WriteHeader StatusInternalServerError ;;
        Encode (error_body "Internal server error")
      | Scanned existingID =>
        w_WriteHeader StatusConflict ;;
        Encode (error_body "User with this email already exists")
      | Failed ErrNoRows =>
        let hashedPassword := Sprintf_hashed (Password request) in
        now ← time_Now ;
        inserted ← QueryRow_insert (Email request) hashedPassword
                     (Name request) (Age request) now ;
        match inserted with
        | Failed err =>
          log_Database_error err ;;
          w_WriteHeader StatusInternalServerError ;;
          Encode (error_body "Failed to create user")
        | Scanned userID =>
          now' ← time_Now ;
          let response : gmap string Value :=
            list_to_map
              [("id", Int userID);
               ("email", Str (Email request));
               ("name", Str (Name request));
               ("age", Int (Age request));
               ("created_at", Str (time.Format_RFC3339 now'));
               ("message", Str "User created successfully")]%string in
          w_Header_Set "Content-Type" "application/json" ;;
          w_WriteHeader StatusCreated ;;
          Encode response
        end
      end
  end.

Definition GetUser (r : Request) : M DB unit :=
  let userID := Values_Get (Query r) "id" in
  if String.eqb userID "" then
    w_WriteHeader StatusBadRequest ;;
    Encode (error_body "User ID is required")
  else
    row ← QueryRow_select_user userID ;
    match row with
    | Failed ErrNoRows =>
      w_WriteHeader StatusNotFound ;;
      Encode (error_body "User not found")
    | Failed (DriverError text) =>
      log_Database_error (DriverError text) ;;
      w_WriteHeader StatusInternalServerError ;;
      Encode (error_body "Internal server error")
    | Scanned u =>
      let response : gmap string Value :=
        list_to_map
          [("id", Int (col_id u));
           ("email", Str (col_email u));
           ("name", Str (col_name u));
           ("age", Int (col_age u));
           ("created_at", Str (time.Format_RFC3339 (col_created_at u)))]%string in
      w_Header_Set "Content-Type" "application/json" ;;
      Encode response
    end.

(** One request served: a fresh response writer is handed to the
    handler and the response is finished when it returns. *)
Definition serve (h : Request -> M DB unit) (env : World DB) (r : Request)
    : Response * World DB :=
  let '(_, (w, env')) := h r (NewResponseWriter, env) in
  (finish w, env').

End Ops.

End handlers.

(** ** A [users] table held in memory

    The database itself is outside the repository.  This table stands
    for it wherever a statement is evaluated on a concrete input: rows
    in insertion order, identifiers handed out by a sequence, an integer
    column compared with a text argument only when the text parses as an
    integer, a connection that may be down, and a server that may
    refuse writes. *)

Module memstore.
Import sql.

Record Row : Type := mkRow {
  id : Z;
  email : string;
  password_hash : string;
  name : string;
  age : Z;
  created_at : time.Time
}.

Record Table : Type := mkTable {
  rows : list Row;
  next_id : Z;
  down : option string;
  read_only : bool
}.

Definition parse_int (s : string) : option Z :=
  option_map Z.of_int (NilZero.int_of_string s).

Definition itoa (n : Z) : string := NilZero.string_of_int (Z.to_int n).

Definition columns (r : Row) : UserColumns :=
  mkUserColumns (id r) (email r) (name r) (age r) (created_at r).

Definition table_select_id (t : Table) (e : string) : Scan Z :=
  match down t with
  | Some text => Failed (DriverError text)
  | None =>
    match find (fun r => String.eqb (email r) e) (rows t) with
    | Some r => Scanned (id r)
    | None => Failed ErrNoRows
    end
  end.

Definition table_insert (t : Table) (e h n : string) (a : Z) (c : time.Time)
    : Table * Scan Z :=
  match down t with
  | Some text => (t, Failed (DriverError text))
  | None =>
    if read_only t
    then (t, Failed (DriverError
                "pq: cannot execute INSERT in a read-only transaction"))
    else (mkTable (rows t ++ [mkRow (next_id t) e h n a c])
                  (next_id t + 1) (down t) (read_only t),
          Scanned (next_id t))
  end.

Definition table_select_user (t : Table) (arg : string) : Scan UserColumns :=
  match down t with
  | Some text => Failed (DriverError text)
  | None =>
    match parse_int arg with
    | None =>
      Failed (DriverError "pq: invalid input syntax for type integer")
    | Some n =>
      match find (fun r => id r =? n) (rows t) with
      | Some r => Scanned (columns r)
      | None => Failed ErrNoRows
      end
    end
  end.

#[global] Instance Table_Store : Store Table := {
  select_id_by_email := table_select_id;
  insert_user := table_insert;
  select_user_by_id := table_select_user
}.

Definition empty : Table := mkTable [] 1 None false.

End memstore.

(** ** The contract, in the specification's words *)

Module contract.
Import GoString json http.

(** The four field checks of the registration contract, in the order
    the specification lists them, each with the message of its
    rejection. *)
Definition field_checks : list ((CreateRequest -> bool) * string) :=
  [ (fun q => regexp.MatchString handlers.emailRegex (Email q),
     "Invalid email format"%string);
    (fun q => 8 <=? len (Password q),
     "Password must be at least 8 characters"%string);
    (fun q => negb (String.eqb (strings.TrimSpace (Name q)) ""),
     "Name is required"%string);
    (fun q => (18 <=? Age q) && (Age q <=? 120),
     "Age must be between 18 and 120"%string) ].

Fixpoint first_rejection (cs : list ((CreateRequest -> bool) * string))
    (q : CreateRequest) : option string :=
  match cs with
  | [] => None
  | (ok, msg) :: rest => if ok q then first_rejection rest q else Some msg
  end.

(** The rejection of a registration payload: that of the first of the
    five checks that fails, [None] when all pass. *)
Definition validation_failure (b : Decoded) : option string :=
  match b with
  | SyntaxError => Some "Invalid JSON"%string
  | Filled q => first_rejection field_checks q
  end.

Definition valid (q : CreateRequest) : Prop :=
  validation_failure (Filled q) = None.

(** An [InvalidInput] response: status 400 and a body naming the error. *)
Definition invalid_input (msg : string) (resp : Response) : Prop :=
  StatusCode resp = StatusBadRequest /\
  RespBody resp = [ {[ "error"%string := Str msg ]} ].

Definition is_letter (a : ascii) : bool :=
  let b := byte_val a in
  ((97 <=? b) && (b <=? 122)) || ((65 <=? b) && (b <=? 90)).

Definition is_digit (a : ascii) : bool :=
  let b := byte_val a in (48 <=? b) && (b <=? 57).

Definition one_of (set : string) (a : ascii) : bool :=
  existsb (Ascii.eqb a) (bytes set).

Definition local_char (a : ascii) : bool :=
  is_letter a || is_digit a || one_of "._%+-" a.

Definition domain_char (a : ascii) : bool :=
  is_letter a || is_digit a || one_of ".-" a.

(** local-part [@] domain [.] TLD, the TLD of two letters or more. *)
Definition address_shape (s : list ascii) : Prop :=
  exists l d t : list ascii,
    s = l ++ "@"%char :: d ++ "."%char :: t /\
    l <> [] /\ forallb local_char l = true /\
    d <> [] /\ forallb domain_char d = true /\
    (2 <= List.length t)%nat /\ forallb is_letter t = true.

(** ISO-8601 date and time with its zone: [YYYY-MM-DDThh:mm:ss]
    followed by [Z] or by [+hh:mm] or [-hh:mm].  Every digit is replaced
    by [0] and the result compared with the three templates. *)
Definition mask_digit (a : ascii) : ascii :=
  if is_digit a then "0"%char else a.

Definition iso8601 (s : string) : bool :=
  let masked := string_of_list_ascii (map mask_digit (bytes s)) in
  String.eqb masked "0000-00-00T00:00:00Z" ||
  String.eqb masked "0000-00-00T00:00:00+00:00" ||
  String.eqb masked "0000-00-00T00:00:00-00:00".

(** The timestamps RFC 3339 can render: a year of four digits and a
    zone less than a day away from UTC. *)
Definition rfc3339_range (t : time.Time) : Prop :=
  0 <= time.Year t <= 9999 /\ -86400 < time.Offset t < 86400.

(** A field of the JSON object a response carries. *)
Definition field (resp : Response) (key : string) : option Value :=
  match RespBody resp with
  | [obj] => obj !! key
  | _ => None
  end.

(** The response header the interface section promises. *)
Definition json_content_type (resp : Response) : Prop :=
  RespHeader resp !! "Content-Type"%string = Some "application/json"%string.

End contract.

(** ** Concrete requests and worlds *)

Module examples.
Import json http sql handlers memstore.

(** A clock read just before and just after midnight:
    2023-12-31T23:59:59.9Z, then 2024-01-01T00:00:00.1Z, and so on in
    steps of 200 ms. *)
Definition clock (n : nat) : time.Time :=
  time.UTC (1704067199900000000 + Z.of_nat n * 200000000).

Definition world_of (t : Table) : World Table := mkWorld t clock 0 [] [].

Definition fresh : World Table := world_of memstore.empty.

(** A table that already holds a user with email [x@y.com]. *)
Definition with_xy : Table :=
  mkTable [mkRow 1 "x@y.com" "hashed_secret99" "Xavier" 41
             (time.UTC 1700000000000000000)]
          2 None false.

Definition unreachable : Table :=
  mkTable [] 1 (Some "dial tcp 10.0.0.5:5432: connect: connection refused") false.

Definition replica : Table := mkTable [] 1 None true.

(** The first instant of the year 10000, in UTC. *)
Definition year_10000 : time.Time := time.UTC (253402300800 * time.Second).

(** A table whose only user was created in the year 10000. *)
Definition with_late_row : Table :=
  mkTable [mkRow 1 "x@y.com" "hashed_secret99" "Xavier" 41 year_10000]
          2 None false.

(** 2023-11-14T22:13:20Z as a driver hands it over for a session in a
    zone three hours east of UTC. *)
Definition in_plus_three : time.Time := time.mkTime 1700000000000000000 10800.

Definition with_zoned_row : Table :=
  mkTable [mkRow 1 "x@y.com" "hashed_secret99" "Xavier" 41 in_plus_three]
          2 None false.

Definition register (e p n : string) (a : Z) : Request :=
  mkRequest (Filled (mkCreateRequest e p n a)) ∅.

(** A request whose body is not JSON. *)
Definition garbled : Request := mkRequest SyntaxError ∅.

(** [GET ...?id=<id>]: no body, so nothing to decode. *)
Definition lookup (id : string) : Request :=
  mkRequest SyntaxError {[ "id"%string := [id] ]}.

Definition ann : CreateRequest := mkCreateRequest "a@b.com" "password123" "Ann" 30.

(** The seven Cyrillic-and-digit characters [п а р о л ь 1], thirteen
    bytes of UTF-8. *)
Definition parol1 : string :=
  string_of_list_ascii
    (map ascii_of_nat
       [208; 191; 208; 176; 209; 128; 208; 190; 208; 187; 209; 140; 49]%nat).

End examples.

(** ** Words for what a request looks like and what a call did *)

Module observations.
Import GoString json http sql.

(** A string made of white space only (the empty string included). *)
Definition blank (s : string) : bool :=
  forallb (fun c : Z * list ascii => strings.IsSpace c.1) (utf8.runes s).

(** The statement is an INSERT. *)
Definition is_insert (q : Statement) : bool :=
  match q with
  | InsertUser _ _ _ _ _ => true
  | _ => false
  end.

(** [ASCII]: every byte below [utf8.RuneSelf]. *)
Definition ascii_only (s : string) : bool :=
  forallb (fun a => byte_val a <? utf8.RuneSelf) (bytes s).

(** How often a byte occurs in a string. *)
Definition occurrences (c : ascii) (s : string) : nat :=
  List.length (List.filter (Ascii.eqb c) (bytes s)).

End observations.

(** * Properties *)

(** ** The matcher decides the language of an expression *)

Module regexp_facts.
Import regexp.

Create HintDb re.
#[local] Hint Constructors Matches : re.

Lemma nullable_sound r : nullable r = true -> Matches r [].
Proof.
  induction r; simpl; intros Hn; try discriminate; eauto with re.
  - apply andb_true_iff in Hn as [H1 H2].
    change (@nil ascii) with (@nil ascii ++ []). eauto with re.
  - apply orb_true_iff in Hn as [H1 | H2]; eauto with re.
Qed.

Lemma nullable_complete r s : Matches r s -> s = [] -> nullable r = true.
Proof.
  induction 1; simpl; intros Hs; try reflexivity; try discriminate.
  - apply app_eq_nil in Hs as [-> ->].
    rewrite IHMatches1, IHMatches2; reflexivity.
  - rewrite IHMatches by assumption; reflexivity.
  - rewrite IHMatches by assumption; apply orb_true_r.
Qed.

Lemma nullable_Matches r : nullable r = true <-> Matches r [].
Proof.
  split; [apply nullable_sound |].
  intros Hm. eapply nullable_complete; eauto.
Qed.

(** A non-empty match of [Star r] starts with a non-empty match of [r]. *)
Lemma Matches_star_cons r a s :
  Matches (Star r) (a :: s) ->
  exists s1 s2, s = s1 ++ s2 /\ Matches r (a :: s1) /\ Matches (Star r) s2.
Proof.
  intros Hm. remember (Star r) as e eqn:He. remember (a :: s) as w eqn:Hw.
  induction Hm; try discriminate.
  injection He as ->.
  destruct s1 as [| b s1].
  - simpl in Hw. apply IHHm2; [reflexivity | assumption].
  - simpl in Hw. injection Hw as -> <-. eauto.
Qed.

Lemma Matches_concat_inv r1 r2 s :
  Matches (Concat r1 r2) s ->
  exists s1 s2, s = s1 ++ s2 /\ Matches r1 s1 /\ Matches r2 s2.
Proof. inversion 1; subst; eauto. Qed.

Lemma deriv_sound a r : forall s, Matches (deriv a r) s -> Matches r (a :: s).
Proof.
  induction r; simpl; intros s Hm.
  - inversion Hm.
  - inversion Hm.
  - destruct (class_has cls a) eqn:Hc; inversion Hm; subst.
    constructor; assumption.
  - destruct (nullable r1) eqn:Hn.
    + inversion Hm as [| | | ? ? ? Hl | ? ? ? Hr | |]; subst.
      * apply Matches_concat_inv in Hl as (s1 & s2 & -> & H1 & H2).
        change (a :: s1 ++ s2) with ((a :: s1) ++ s2). eauto with re.
      * change (a :: s) with ([] ++ a :: s).
        constructor; [apply nullable_sound; assumption | auto].
    + apply Matches_concat_inv in Hm as (s1 & s2 & -> & H1 & H2).
      change (a :: s1 ++ s2) with ((a :: s1) ++ s2). eauto with re.
  - inversion Hm; subst; eauto with re.
  - apply Matches_concat_inv in Hm as (s1 & s2 & -> & H1 & H2).
    change (a :: s1 ++ s2) with ((a :: s1) ++ s2). eauto with re.
Qed.

Lemma deriv_complete a r : forall s, Matches r (a :: s) -> Matches (deriv a r) s.
Proof.
  induction r; simpl; intros s Hm.
  - inversion Hm.
  - inversion Hm.
  - inversion Hm as [| ? ? Hc | | | | |]; subst. rewrite Hc. constructor.
  - apply Matches_concat_inv in Hm as (s1 & s2 & Hs & H1 & H2).
    destruct s1 as [| b s1]; simpl in Hs.
    + subst s2. rewrite (nullable_complete _ _ H1 eq_refl).
      apply MAltR; auto.
    + injection Hs as <- ->.
      destruct (nullable r1); [apply MAltL |]; eauto with re.
  - inversion Hm; subst; eauto with re.
  - apply Matches_star_cons in Hm as (s1 & s2 & -> & H1 & H2).
    eauto with re.
Qed.

Theorem match_all_Matches s : forall r, match_all r s = true <-> Matches r s.
Proof.
  induction s as [| a s IH]; intros r; simpl.
  - apply nullable_Matches.
  - rewrite IH. split; [apply deriv_sound | apply deriv_complete].
Qed.

(** *** The language of the shapes the handler's pattern is built of *)

Lemma Matches_class cls s :
  Matches (CharClass cls) s <-> exists a, s = [a] /\ class_has cls a = true.
Proof.
  split.
  - inversion 1; subst; eauto.
  - intros (a & -> & Hc). constructor; assumption.
Qed.

Lemma Matches_concat r1 r2 s :
  Matches (Concat r1 r2) s <->
  exists s1 s2, s = s1 ++ s2 /\ Matches r1 s1 /\ Matches r2 s2.
Proof.
  split; [apply Matches_concat_inv |].
  intros (s1 & s2 & -> & H1 & H2). eauto with re.
Qed.

Lemma Matches_star_class cls s :
  Matches (Star (CharClass cls)) s <-> forallb (class_has cls) s = true.
Proof.
  split.
  - induction s as [| a s IH]; intros Hm; [reflexivity |].
    apply Matches_star_cons in Hm as (s1 & s2 & -> & H1 & H2).
    apply Matches_class in H1 as (b & Hb & Hc).
    injection Hb as <- ->. simpl in *. rewrite Hc. auto.
  - induction s as [| a s IH]; simpl; intros Hf; [constructor |].
    apply andb_true_iff in Hf as [Ha Hs].
    change (a :: s) with ([a] ++ s). eauto with re.
Qed.

Lemma Matches_plus_class cls s :
  Matches (Plus (CharClass cls)) s <->
  s <> [] /\ forallb (class_has cls) s = true.
Proof.
  unfold Plus. rewrite Matches_concat. split.
  - intros (s1 & s2 & -> & H1 & H2).
    apply Matches_class in H1 as (a & -> & Hc).
    apply Matches_star_class in H2.
    split; [discriminate | simpl; rewrite Hc; assumption].
  - intros [Hne Hf]. destruct s as [| a s]; [congruence |].
    simpl in Hf. apply andb_true_iff in Hf as [Ha Hs].
    exists [a], s. repeat split.
    + constructor; assumption.
    + apply Matches_star_class; assumption.
Qed.

Lemma Matches_atleast2_class cls s :
  Matches (AtLeast2 (CharClass cls)) s <->
  (2 <= List.length s)%nat /\ forallb (class_has cls) s = true.
Proof.
  unfold AtLeast2. rewrite Matches_concat. split.
  - intros (s1 & s2 & -> & H1 & H2).
    apply Matches_class in H1 as (a & -> & Hc).
    apply (Matches_plus_class cls s2) in H2 as [Hne Hf].
    destruct s2; [congruence |].
    split; [simpl; lia | simpl in *; rewrite Hc; assumption].
  - intros [Hlen Hf]. destruct s as [| a [| b s]]; simpl in Hlen; try lia.
    simpl in Hf. apply andb_true_iff in Hf as [Ha Hf].
    exists [a], (b :: s). repeat split.
    + constructor; assumption.
    + apply (Matches_plus_class cls (b :: s)). split; [discriminate | exact Hf].
Qed.

Lemma Matches_literal c s : Matches (Literal c) s <-> s = [c].
Proof.
  unfold Literal. rewrite Matches_class. split.
  - intros (a & -> & Hc). simpl in Hc. rewrite orb_false_r in Hc.
    apply Ascii.eqb_eq in Hc as ->. reflexivity.
  - intros ->. exists c. simpl. rewrite Ascii.eqb_refl. auto.
Qed.

End regexp_facts.

(** ** What each path of the handlers produces *)

Module handlers_facts.
Import GoString json http sql handlers contract.

(** Runs the handler's steps, leaving maps, strings and the store's
    answers as they are. *)
Ltac run_handler :=
  cbv beta iota zeta delta
    [serve CreateUser GetUser mbind mret M_bind M_ret on_writer
     w_Header_Set w_WriteHeader Encode time_Now log_Database_error sent
     QueryRow_select_id QueryRow_insert QueryRow_select_user
     Header_Set WriteHeader Write finish NewResponseWriter
     Header Wrote Written Db Clock Ticks Sent Log Body Query].

(** Takes the handler past its four field checks. *)
Ltac valid_path He Hp Hn Ha :=
  unfold serve, CreateUser; cbv beta iota delta [Body];
  rewrite He, Hp, Hn, Ha; cbv beta iota delta [negb]; run_handler.

(** The conditions the handler tests, from the contract's view of a
    valid payload. *)
Lemma valid_inv (q : CreateRequest) :
  valid q ->
  regexp.MatchString emailRegex (Email q) = true /\
  (len (Password q) <? 8) = false /\
  String.eqb (strings.TrimSpace (Name q)) "" = false /\
  ((Age q <? 18) || (Age q >? 120)) = false.
Proof.
  unfold valid, validation_failure, field_checks, first_rejection.
  destruct (regexp.MatchString emailRegex (Email q)); [| discriminate].
  destruct (8 <=? len (Password q)) eqn:Hp; [| discriminate].
  destruct (String.eqb (strings.TrimSpace (Name q)) ""); [discriminate |].
  destruct ((18 <=? Age q) && (Age q <=? 120)) eqn:Ha; [| discriminate].
  intros _. repeat split.
  - lia.
  - apply andb_true_iff in Ha as [H1 H2].
    apply orb_false_iff. rewrite Z.gtb_ltb. lia.
Qed.

Section Paths.
Context {DB : Type} `{Store DB}.
Implicit Types (env : World DB) (r : Request) (q : CreateRequest).

Lemma CreateUser_rejects env r msg :
  validation_failure (Body r) = Some msg ->
  serve CreateUser env r =
  (mkResponse StatusBadRequest ∅ [error_body msg], env).
Proof.
  destruct r as [b qs]. destruct env.
  unfold validation_failure, field_checks, first_rejection. simpl Body.
  destruct b as [| q]; run_handler.
  - intros [= <-]. reflexivity.
  - destruct (regexp.MatchString emailRegex (Email q)); simpl negb; cbv iota;
      [| intros [= <-]; reflexivity].
    destruct (Z.leb_spec 8 (len (Password q))) as [Hp | Hp].
    2:{ intros [= <-]. apply Z.ltb_lt in Hp. rewrite Hp. reflexivity. }
    apply Z.ltb_ge in Hp. rewrite Hp.
    destruct (String.eqb (strings.TrimSpace (Name q)) ""); simpl negb; cbv iota;
      [intros [= <-]; reflexivity |].
    destruct ((18 <=? Age q) && (Age q <=? 120)) eqn:Ha; [discriminate |].
    intros [= <-].
    assert (Hf : (Age q <? 18) || (Age q >? 120) = true).
    { apply andb_false_iff in Ha. apply orb_true_iff. rewrite Z.gtb_ltb. lia. }
    rewrite Hf. reflexivity.
Qed.

Lemma CreateUser_conflict env q qs existingID :
  valid q ->
  select_id_by_email (Db env) (Email q) = Scanned existingID ->
  serve CreateUser env (mkRequest (Filled q) qs) =
  (mkResponse StatusConflict ∅
     [error_body "User with this email already exists"],
   mkWorld (Db env) (Clock env) (Ticks env)
     (Sent env ++ [SelectIDByEmail (Email q)]) (Log env)).
Proof.
  intros (He & Hp & Hn & Ha)%valid_inv Hsel. destruct env.
  simpl in Hsel. valid_path He Hp Hn Ha.
  rewrite Hsel. reflexivity.
Qed.

Lemma CreateUser_existence_check_fails env q qs text :
  valid q ->
  select_id_by_email (Db env) (Email q) = Failed (DriverError text) ->
  serve CreateUser env (mkRequest (Filled q) qs) =
  (mkResponse StatusInternalServerError ∅
     [error_body "Internal server error"],
   mkWorld (Db env) (Clock env) (Ticks env)
     (Sent env ++ [SelectIDByEmail (Email q)])
     (Log env ++ [String.append "Database error: " text])).
Proof.
  intros (He & Hp & Hn & Ha)%valid_inv Hsel. destruct env.
  simpl in Hsel. valid_path He Hp Hn Ha.
  rewrite Hsel. reflexivity.
Qed.

Lemma CreateUser_insert_fails env q qs db' err :
  valid q ->
  select_id_by_email (Db env) (Email q) = Failed ErrNoRows ->
  insert_user (Db env) (Email q) (Sprintf_hashed (Password q)) (Name q)
    (Age q) (Clock env (Ticks env)) = (db', Failed err) ->
  serve CreateUser env (mkRequest (Filled q) qs) =
  (mkResponse StatusInternalServerError ∅
     [error_body "Failed to create user"],
   mkWorld db' (Clock env) (S (Ticks env))
     (Sent env ++
      [SelectIDByEmail (Email q);
       InsertUser (Email q) (Sprintf_hashed (Password q)) (Name q) (Age q)
         (Clock env (Ticks env))])
     (Log env ++ [String.append "Database error: " (Error err)])).
Proof.
  intros (He & Hp & Hn & Ha)%valid_inv Hsel Hins. destruct env.
  simpl in Hsel, Hins. valid_path He Hp Hn Ha.
  rewrite Hsel. run_handler. rewrite Hins. run_handler.
  rewrite <- app_assoc. reflexivity.
Qed.

Lemma CreateUser_created env q qs db' userID :
  valid q ->
  select_id_by_email (Db env) (Email q) = Failed ErrNoRows ->
  insert_user (Db env) (Email q) (Sprintf_hashed (Password q)) (Name q)
    (Age q) (Clock env (Ticks env)) = (db', Scanned userID) ->
  serve CreateUser env (mkRequest (Filled q) qs) =
  (mkResponse StatusCreated {[ "Content-Type" := "application/json" ]}%string
     [list_to_map
        [("id", Int userID);
         ("email", Str (Email q));
         ("name", Str (Name q));
         ("age", Int (Age q));
         ("created_at", Str (time.Format_RFC3339 (Clock env (S (Ticks env)))));
         ("message", Str "User created successfully")]%string],
   mkWorld db' (Clock env) (S (S (Ticks env)))
     (Sent env ++
      [SelectIDByEmail (Email q);
       InsertUser (Email q) (Sprintf_hashed (Password q)) (Name q) (Age q)
         (Clock env (Ticks env))])
     (Log env)).
Proof.
  intros (He & Hp & Hn & Ha)%valid_inv Hsel Hins. destruct env.
  simpl in Hsel, Hins. valid_path He Hp Hn Ha.
  rewrite Hsel. run_handler. rewrite Hins. run_handler.
  rewrite <- app_assoc. reflexivity.
Qed.

Lemma GetUser_missing_id env r :
  Values_Get (Query r) "id" = ""%string ->
  serve GetUser env r =
  (mkResponse StatusBadRequest ∅ [error_body "User ID is required"], env).
Proof.
  destruct r as [b qs]. cbn [Query].
  intros Hid. destruct env. unfold serve, GetUser. cbn [Query]. cbv zeta.
  rewrite Hid. run_handler. reflexivity.
Qed.

Lemma GetUser_not_found env r :
  Values_Get (Query r) "id" <> ""%string ->
  select_user_by_id (Db env) (Values_Get (Query r) "id") = Failed ErrNoRows ->
  serve GetUser env r =
  (mkResponse StatusNotFound ∅ [error_body "User not found"],
   mkWorld (Db env) (Clock env) (Ticks env)
     (Sent env ++ [SelectUserByID (Values_Get (Query r) "id")]) (Log env)).
Proof.
  destruct r as [b qs]. cbn [Query].
  intros Hid%String.eqb_neq Hsel. destruct env. cbn [Db] in Hsel.
  unfold serve, GetUser. cbn [Query]. cbv zeta. rewrite Hid. run_handler.
  rewrite Hsel. reflexivity.
Qed.

Lemma GetUser_store_error env r text :
  Values_Get (Query r) "id" <> ""%string ->
  select_user_by_id (Db env) (Values_Get (Query r) "id")
    = Failed (DriverError text) ->
  serve GetUser env r =
  (mkResponse StatusInternalServerError ∅
     [error_body "Internal server error"],
   mkWorld (Db env) (Clock env) (Ticks env)
     (Sent env ++ [SelectUserByID (Values_Get (Query r) "id")])
     (Log env ++ [String.append "Database error: " text])).
Proof.
  destruct r as [b qs]. cbn [Query].
  intros Hid%String.eqb_neq Hsel. destruct env. cbn [Db] in Hsel.
  unfold serve, GetUser. cbn [Query]. cbv zeta. rewrite Hid. run_handler.
  rewrite Hsel. reflexivity.
Qed.

Lemma GetUser_found env r u :
  Values_Get (Query r) "id" <> ""%string ->
  select_user_by_id (Db env) (Values_Get (Query r) "id") = Scanned u ->
  serve GetUser env r =
  (mkResponse StatusOK {[ "Content-Type" := "application/json" ]}%string
     [list_to_map
        [("id", Int (col_id u));
         ("email", Str (col_email u));
         ("name", Str (col_name u));
         ("age", Int (col_age u));
         ("created_at", Str (time.Format_RFC3339 (col_created_at u)))]%string],
   mkWorld (Db env) (Clock env) (Ticks env)
     (Sent env ++ [SelectUserByID (Values_Get (Query r) "id")]) (Log env)).
Proof.
  destruct r as [b qs]. cbn [Query].
  intros Hid%String.eqb_neq Hsel. destruct env. cbn [Db] in Hsel.
  unfold serve, GetUser. cbn [Query]. cbv zeta. rewrite Hid. run_handler.
  rewrite Hsel. reflexivity.
Qed.

End Paths.

End handlers_facts.

(** ** Strings, characters and timestamps *)

Module text_facts.
Import GoString contract.

Lemma bytes_length s : List.length (bytes s) = String.length s.
Proof. induction s as [| a s IH]; simpl; [reflexivity | now rewrite IH]. Qed.

Lemma runes_from_length s : forall skip,
  (List.length (utf8.runes_from skip s) <= List.length s)%nat.
Proof.
  induction s as [| a s IH]; intros skip; [simpl; lia |].
  destruct skip as [| k].
  - cbn [utf8.runes_from]. destruct (utf8.DecodeRune (a :: s)) as [r w].
    cbn [List.length]. specialize (IH (w - 1)%nat). lia.
  - cbn [utf8.runes_from List.length]. specialize (IH k). lia.
Qed.

(** A string never has more characters than bytes. *)
Lemma RuneCount_le_len s : utf8.RuneCountInString s <= len s.
Proof.
  unfold utf8.RuneCountInString, utf8.runes, len.
  rewrite <- bytes_length. apply inj_le, runes_from_length.
Qed.

Lemma forallb_pointwise {A} (f g : A -> bool) (l : list A) :
  (forall a, f a = g a) -> forallb f l = forallb g l.
Proof. intros E. induction l as [| a l IH]; simpl; [| rewrite E, IH]; reflexivity. Qed.

Lemma local_class a :
  regexp.class_has
    [regexp.Range "a" "z"; regexp.Range "A" "Z"; regexp.Range "0" "9";
     regexp.Single "."; regexp.Single "_"; regexp.Single "%";
     regexp.Single "+"; regexp.Single "-"] a = local_char a.
Proof. destruct a as [[] [] [] [] [] [] [] []]; reflexivity. Qed.

Lemma domain_class a :
  regexp.class_has
    [regexp.Range "a" "z"; regexp.Range "A" "Z"; regexp.Range "0" "9";
     regexp.Single "."; regexp.Single "-"] a = domain_char a.
Proof. destruct a as [[] [] [] [] [] [] [] []]; reflexivity. Qed.

Lemma letter_class a :
  regexp.class_has [regexp.Range "a" "z"; regexp.Range "A" "Z"] a = is_letter a.
Proof. destruct a as [[] [] [] [] [] [] [] []]; reflexivity. Qed.

(** The language of the handler's pattern is the address shape. *)
Lemma emailRegex_language s :
  regexp.Matches handlers.emailRegex s <-> address_shape s.
Proof.
  unfold handlers.emailRegex, address_shape.
  rewrite regexp_facts.Matches_concat. split.
  - intros (l & s1 & -> & Hl & H1).
    apply regexp_facts.Matches_plus_class in Hl as [Hl Hlf].
    apply regexp_facts.Matches_concat in H1 as (at_ & s2 & -> & Hat & H2).
    apply regexp_facts.Matches_literal in Hat as ->.
    apply regexp_facts.Matches_concat in H2 as (d & s3 & -> & Hd & H3).
    apply regexp_facts.Matches_plus_class in Hd as [Hd Hdf].
    apply regexp_facts.Matches_concat in H3 as (dot & t & -> & Hdot & Ht).
    apply regexp_facts.Matches_literal in Hdot as ->.
    apply regexp_facts.Matches_atleast2_class in Ht as [Ht Htf].
    exists l, d, t.
    rewrite (forallb_pointwise _ _ _ local_class) in Hlf.
    rewrite (forallb_pointwise _ _ _ domain_class) in Hdf.
    rewrite (forallb_pointwise _ _ _ letter_class) in Htf.
    repeat split; assumption.
  - intros (l & d & t & -> & Hl & Hlf & Hd & Hdf & Ht & Htf).
    rewrite <- (forallb_pointwise _ _ _ local_class) in Hlf.
    rewrite <- (forallb_pointwise _ _ _ domain_class) in Hdf.
    rewrite <- (forallb_pointwise _ _ _ letter_class) in Htf.
    exists l, ("@"%char :: d ++ "."%char :: t). split; [reflexivity |]. split.
    { apply regexp_facts.Matches_plus_class. split; assumption. }
    apply regexp_facts.Matches_concat.
    exists ["@"%char], (d ++ "."%char :: t). split; [reflexivity |]. split.
    { apply regexp_facts.Matches_literal. reflexivity. }
    apply regexp_facts.Matches_concat.
    exists d, ("."%char :: t). split; [reflexivity |]. split.
    { apply regexp_facts.Matches_plus_class. split; assumption. }
    apply regexp_facts.Matches_concat.
    exists ["."%char], t. split; [reflexivity |]. split.
    { apply regexp_facts.Matches_literal. reflexivity. }
    apply regexp_facts.Matches_atleast2_class. split; assumption.
Qed.

Lemma MatchString_emailRegex e :
  regexp.MatchString handlers.emailRegex e = true <-> address_shape (bytes e).
Proof.
  unfold regexp.MatchString.
  rewrite regexp_facts.match_all_Matches. apply emailRegex_language.
Qed.

(** The calendar fields are in range: months 1 to 12, days 1 to 31. *)
Lemma civil_month_day days :
  1 <= (time.civil days).1.2 <= 12 /\ 1 <= (time.civil days).2 <= 31.
Proof.
  unfold time.civil. cbv zeta. cbn [fst snd].
  set (z := days + 719468).
  set (era := z / 146097).
  set (doe := z - era * 146097).
  assert (Hdoe : 0 <= doe <= 146096).
  { subst doe era. pose proof (Z.mod_pos_bound z 146097 ltac:(lia)).
    rewrite Z.mod_eq in H by lia. lia. }
  clearbody doe. clear z era days.
  set (yoe := (doe - doe / 1460 + doe / 36524 - doe / 146096) / 365).
  assert (Hyoe : 0 <= yoe <= 399 /\ 0 <= doe - (365 * yoe + yoe / 4 - yoe / 100) <= 365).
  { subst yoe. Z.to_euclidean_division_equations; lia. }
  clearbody yoe.
  set (doy := doe - (365 * yoe + yoe / 4 - yoe / 100)) in *.
  clearbody doy. destruct Hyoe as [_ Hdoy]. clear doe Hdoe yoe.
  set (mp := (5 * doy + 2) / 153).
  assert (Hmp : 0 <= mp <= 11 /\ 1 <= doy - (153 * mp + 2) / 5 + 1 <= 31).
  { subst mp. Z.to_euclidean_division_equations; lia. }
  clearbody mp. destruct Hmp as [Hmp Hd].
  split; [| exact Hd].
  destruct (mp <? 10) eqn:E; [apply Z.ltb_lt in E | apply Z.ltb_ge in E]; lia.
Qed.

Lemma mask_of_digit n : mask_digit (time.digit n) = "0"%char.
Proof.
  unfold mask_digit, time.digit, is_digit, byte_val.
  assert (Hr : 0 <= n mod 10 < 10) by (apply Z.mod_pos_bound; lia).
  rewrite N_ascii_embedding by lia.
  rewrite Z2N.id by lia.
  replace ((48 <=? 48 + n mod 10) && (48 + n mod 10 <=? 57)) with true;
    [reflexivity |].
  symmetry. apply andb_true_iff. lia.
Qed.

Lemma bytes_app s1 s2 : bytes (String.append s1 s2) = bytes s1 ++ bytes s2.
Proof.
  unfold bytes. induction s1 as [| a s1 IH]; [reflexivity |].
  change (String.append (String a s1) s2) with (String a (String.append s1 s2)).
  cbn [list_ascii_of_string app]. rewrite IH. reflexivity.
Qed.

Lemma bytes_of_list l : bytes (string_of_list_ascii l) = l.
Proof. apply list_ascii_of_string_of_list_ascii. Qed.

(** The fuel of [decimal] covers [k] divisions by ten once [2^k <= u]. *)
Lemma fuel_for u k : 2 ^ Z.of_nat k <= u -> (k <= Z.to_nat (Z.log2 u))%nat.
Proof.
  intros Hu. assert (Hk : Z.of_nat k <= Z.log2 u).
  { apply Z.log2_le_pow2; lia. }
  lia.
Qed.

(** The digits of numbers of one to four digits. *)
Lemma decimal_1 u : 0 <= u < 10 -> time.decimal u = [time.digit u].
Proof.
  intros Hu. unfold time.decimal. cbn [time.digits_from].
  destruct (Z.ltb_spec u 10); [reflexivity | lia].
Qed.

Lemma decimal_2 u :
  10 <= u < 100 -> time.decimal u = [time.digit (u / 10); time.digit u].
Proof.
  intros Hu. unfold time.decimal.
  pose proof (fuel_for u 1 ltac:(simpl; lia)) as Hf.
  destruct (Z.to_nat (Z.log2 u)) as [| f]; [lia |].
  cbn [time.digits_from].
  destruct (Z.ltb_spec u 10); [lia |].
  destruct (Z.ltb_spec (u / 10) 10); [reflexivity |].
  Z.to_euclidean_division_equations; lia.
Qed.

Lemma decimal_3 u :
  100 <= u < 1000 ->
  time.decimal u = [time.digit (u / 10 / 10); time.digit (u / 10); time.digit u].
Proof.
  intros Hu. unfold time.decimal.
  pose proof (fuel_for u 2 ltac:(simpl; lia)) as Hf.
  destruct (Z.to_nat (Z.log2 u)) as [| [| f]]; try lia.
  cbn [time.digits_from].
  destruct (Z.ltb_spec u 10); [lia |].
  destruct (Z.ltb_spec (u / 10) 10); [Z.to_euclidean_division_equations; lia |].
  destruct (Z.ltb_spec (u / 10 / 10) 10); [reflexivity |].
  Z.to_euclidean_division_equations; lia.
Qed.

Lemma decimal_4 u :
  1000 <= u < 10000 ->
  time.decimal u =
  [time.digit (u / 10 / 10 / 10); time.digit (u / 10 / 10); time.digit (u / 10);
   time.digit u].
Proof.
  intros Hu. unfold time.decimal.
  pose proof (fuel_for u 3 ltac:(simpl; lia)) as Hf.
  destruct (Z.to_nat (Z.log2 u)) as [| [| [| f]]]; try lia.
  cbn [time.digits_from].
  destruct (Z.ltb_spec u 10); [lia |].
  destruct (Z.ltb_spec (u / 10) 10); [Z.to_euclidean_division_equations; lia |].
  destruct (Z.ltb_spec (u / 10 / 10) 10); [Z.to_euclidean_division_equations; lia |].
  destruct (Z.ltb_spec (u / 10 / 10 / 10) 10); [reflexivity |].
  Z.to_euclidean_division_equations; lia.
Qed.

(** A field that fits its width is rendered as that many digits. *)
Lemma masked_appendInt_2 x :
  0 <= x < 100 ->
  map mask_digit (bytes (time.appendInt x 2)) = ["0"; "0"]%char.
Proof.
  intros Hx. unfold time.appendInt. rewrite bytes_of_list.
  destruct (Z.ltb_spec x 0); [lia |]. rewrite Z.abs_eq by lia.
  destruct (Z.lt_ge_cases x 10).
  - rewrite decimal_1 by lia. cbn. now rewrite mask_of_digit.
  - rewrite decimal_2 by lia. cbn. now rewrite !mask_of_digit.
Qed.

Lemma masked_appendInt_4 x :
  0 <= x < 10000 ->
  map mask_digit (bytes (time.appendInt x 4)) = ["0"; "0"; "0"; "0"]%char.
Proof.
  intros Hx. unfold time.appendInt. rewrite bytes_of_list.
  destruct (Z.ltb_spec x 0); [lia |]. rewrite Z.abs_eq by lia.
  destruct (Z.lt_ge_cases x 10); [| destruct (Z.lt_ge_cases x 100);
    [| destruct (Z.lt_ge_cases x 1000)]].
  - rewrite decimal_1 by lia. cbn. now rewrite mask_of_digit.
  - rewrite decimal_2 by lia. cbn. now rewrite !mask_of_digit.
  - rewrite decimal_3 by lia. cbn. now rewrite !mask_of_digit.
  - rewrite decimal_4 by lia. cbn. now rewrite !mask_of_digit.
Qed.

(** The zone is [Z] or a signed [hh:mm]. *)
Lemma masked_zone_suffix offset :
  -86400 < offset < 86400 ->
  let masked := map mask_digit (bytes (time.zone_suffix offset)) in
  masked = ["Z"]%char \/ masked = ["+"; "0"; "0"; ":"; "0"; "0"]%char \/
  masked = ["-"; "0"; "0"; ":"; "0"; "0"]%char.
Proof.
  intros Ho. cbv zeta. unfold time.zone_suffix.
  destruct (Z.eqb_spec offset 0); [left; reflexivity | right].
  cbv zeta. set (zone := Z.quot offset 60).
  assert (Hz : Z.abs zone < 1440).
  { subst zone. Z.to_euclidean_division_equations; lia. }
  assert (Hh : 0 <= Z.abs zone / 60 < 100) by (Z.to_euclidean_division_equations; lia).
  assert (Hm : 0 <= Z.abs zone mod 60 < 100) by (Z.to_euclidean_division_equations; lia).
  cbn [String.concat]. rewrite !bytes_app, !map_app.
  rewrite (masked_appendInt_2 _ Hh), (masked_appendInt_2 _ Hm).
  destruct (zone <? 0); [right | left]; reflexivity.
Qed.

(** A timestamp with a four-digit year, in a zone less than a day from
    UTC, is rendered in the ISO-8601 shape. *)
Lemma Format_RFC3339_iso8601 t :
  rfc3339_range t -> iso8601 (time.Format_RFC3339 t) = true.
Proof.
  intros [Hy Ho]. unfold iso8601, time.Format_RFC3339. unfold time.Year in Hy.
  pose proof (civil_month_day (time.wall t / 86400)) as [Hm Hd].
  destruct (time.civil (time.wall t / 86400)) as [[y m] d]. cbn [fst snd] in *.
  assert (Hs : 0 <= time.wall t mod 86400 < 86400) by (apply Z.mod_pos_bound; lia).
  set (sod := time.wall t mod 86400) in *.
  assert (Hhh : 0 <= sod / 3600 < 100) by (Z.to_euclidean_division_equations; lia).
  assert (Hmm : 0 <= sod mod 3600 / 60 < 100) by (Z.to_euclidean_division_equations; lia).
  assert (Hss : 0 <= sod mod 60 < 100) by (Z.to_euclidean_division_equations; lia).
  cbn [String.concat]. rewrite !bytes_app, !map_app.
  rewrite (masked_appendInt_4 y) by lia.
  rewrite (masked_appendInt_2 m) by lia.
  rewrite (masked_appendInt_2 d) by lia.
  rewrite (masked_appendInt_2 _ Hhh), (masked_appendInt_2 _ Hmm),
          (masked_appendInt_2 _ Hss).
  destruct (masked_zone_suffix (time.Offset t) Ho) as [-> | [-> | ->]];
    reflexivity.
Qed.

End text_facts.

(** ** The in-memory table answers as a [users] table would *)

Module memstore_facts.
Import sql memstore.

Lemma select_id_finds_email t r :
  down t = None -> In r (rows t) ->
  exists i, table_select_id t (email r) = Scanned i.
Proof.
  intros Hup Hin. unfold table_select_id. rewrite Hup.
  destruct (find (fun r' => String.eqb (email r') (email r)) (rows t)) as [r' |] eqn:Hf.
  - eauto.
  - apply (find_none _ _ Hf) in Hin. rewrite String.eqb_refl in Hin. discriminate.
Qed.

Lemma select_id_unknown_email t e :
  down t = None -> (forall r, In r (rows t) -> email r <> e) ->
  table_select_id t e = Failed ErrNoRows.
Proof.
  intros Hup Hno. unfold table_select_id. rewrite Hup.
  destruct (find (fun r' => String.eqb (email r') e) (rows t)) as [r' |] eqn:Hf;
    [| reflexivity].
  apply find_some in Hf as [Hin He]. apply String.eqb_eq in He.
  destruct (Hno _ Hin He).
Qed.

Lemma select_user_rejects_text t arg :
  down t = None -> parse_int arg = None ->
  table_select_user t arg =
  Failed (DriverError "pq: invalid input syntax for type integer").
Proof. intros Hup Hp. unfold table_select_user. rewrite Hup, Hp. reflexivity. Qed.

End memstore_facts.

(** ** Status and body of the responses *)

Module response_facts.
Import GoString json http sql handlers contract handlers_facts.

(** [Get] yields the empty string for a key that is missing, and for one
    whose first value is empty. *)
Lemma Values_Get_empty (q : gmap string (list string)) (key : string) :
  Values_Get q key = ""%string <->
  q !! key = None \/ q !! key = Some [] \/
  exists rest, q !! key = Some (""%string :: rest).
Proof.
  unfold Values_Get. destruct (q !! key) as [[| v rest] |]; split; auto.
  - intros ->. eauto.
  - intros [Hn | [Hn | [rest' Hn]]]; congruence.
Qed.

Lemma error_body_inj (m1 m2 : string) :
  error_body m1 = error_body m2 -> m1 = m2.
Proof.
  unfold error_body. intros E.
  apply (f_equal (fun m : gmap string Value => m !! "error"%string)) in E.
  rewrite !lookup_singleton_eq in E. congruence.
Qed.

Section Status.
Context {DB : Type} `{Store DB}.
Implicit Types (env : World DB) (r : Request) (q : CreateRequest).

(** Past validation the handler answers 409, 500 or 201. *)
Lemma CreateUser_valid_status env q qs :
  valid q ->
  let code := StatusCode (serve CreateUser env (mkRequest (Filled q) qs)).1 in
  code = StatusConflict \/ code = StatusInternalServerError \/
  code = StatusCreated.
Proof.
  intros Hv. cbv zeta.
  destruct (select_id_by_email (Db env) (Email q)) as [i | [| text]] eqn:Hsel.
  - rewrite (CreateUser_conflict env q qs i Hv Hsel). auto.
  - destruct (insert_user (Db env) (Email q) (Sprintf_hashed (Password q))
                (Name q) (Age q) (Clock env (Ticks env)))
      as [db' [i | err]] eqn:Hins.
    + rewrite (CreateUser_created env q qs db' i Hv Hsel Hins). auto.
    + rewrite (CreateUser_insert_fails env q qs db' err Hv Hsel Hins). auto.
  - rewrite (CreateUser_existence_check_fails env q qs text Hv Hsel). auto.
Qed.

(** A request is rejected with a given message only when that is
    the first check to fail. *)
Lemma CreateUser_invalid_input_iff env r msg :
  invalid_input msg (serve CreateUser env r).1 <->
  validation_failure (Body r) = Some msg.
Proof.
  split.
  - destruct (validation_failure (Body r)) as [msg' |] eqn:Hv.
    + rewrite (CreateUser_rejects env r msg' Hv). intros [_ Hb].
      apply (f_equal (hd (error_body ""))) in Hb.
      apply (error_body_inj msg' msg) in Hb. congruence.
    + destruct r as [[| q] qs]; [discriminate |]. intros [Hs _].
      pose proof (CreateUser_valid_status env q qs Hv) as Hc. cbv zeta in Hc.
      cbn [Body] in Hs. rewrite Hs in Hc.
      destruct Hc as [Hc | [Hc | Hc]]; discriminate.
  - intros Hv. rewrite (CreateUser_rejects env r msg Hv). split; reflexivity.
Qed.

End Status.

End response_facts.

(** * The claims *)

Import GoString json http sql handlers contract.
Import handlers_facts response_facts.



(** C2. A valid registration payload whose email the existence check
    finds in the store is answered with Conflict (409) and the message
    "User with this email already exists"; the only statement sent is
    the SELECT of the existence check, so no insert is performed and the
    store is unchanged. *)
Theorem C2_duplicate_email_conflict {DB : Type} `{Store DB}
    (env : World DB) (q : CreateRequest) (qs : gmap string (list string))
    (existingID : Z) :
  valid q ->
  select_id_by_email (Db env) (Email q) = Scanned existingID ->
  let out := serve CreateUser env (mkRequest (Filled q) qs) in
  StatusCode out.1 = StatusConflict /\
  RespBody out.1 =
    [ {[ "error"%string := Str "User with this email already exists" ]} ] /\
  Sent out.2 = Sent env ++ [SelectIDByEmail (Email q)] /\
  Db out.2 = Db env.
Proof.
  intros Hv Hsel. cbv zeta.
  rewrite (CreateUser_conflict env q qs existingID Hv Hsel).
  repeat split.
Qed.

(** With [x@y.com] already in the table, a second registration under
    that email is a conflict and the table keeps its single row. *)
Lemma C2_witness :
  let out := serve CreateUser (examples.world_of examples.with_xy)
               (examples.register "x@y.com" "password123" "Eve" 20) in
  StatusCode out.1 = StatusConflict /\
  Sent out.2 = [SelectIDByEmail "x@y.com"] /\
  memstore.rows (Db out.2) = memstore.rows examples.with_xy.
Proof.
  destruct (C2_duplicate_email_conflict (examples.world_of examples.with_xy)
              (mkCreateRequest "x@y.com" "password123" "Eve" 20) ∅ 1)
    as (Hs & _ & Hq & Hd); [vm_compute; reflexivity | reflexivity |].
  exact (conj Hs (conj Hq (f_equal memstore.rows Hd))).
Defined.

(** X13.  What registration followed by a lookup agree on: when the store
    hands back the row it was given, the lookup repeats the id, email,
    name and age of the 201 response.  The two [created_at] fields come
    from two readings of the clock: the lookup shows the reading taken
    for the INSERT, the 201 response the reading taken after it. *)
Lemma lookup_after_registration {DB : Type} `{Store DB}
    (env : World DB) (q : CreateRequest) (qs : gmap string (list string))
    (db' : DB) (userID : Z) (r : Request) :
  valid q ->
  select_id_by_email (Db env) (Email q) = Failed ErrNoRows ->
  insert_user (Db env) (Email q) (Sprintf_hashed (Password q)) (Name q)
    (Age q) (Clock env (Ticks env)) = (db', Scanned userID) ->
  Values_Get (Query r) "id" <> ""%string ->
  select_user_by_id db' (Values_Get (Query r) "id") =
    Scanned (mkUserColumns userID (Email q) (Name q) (Age q)
               (Clock env (Ticks env))) ->
  let created := serve CreateUser env (mkRequest (Filled q) qs) in
  let found := serve GetUser created.2 r in
  StatusCode created.1 = StatusCreated /\
  StatusCode found.1 = StatusOK /\
  field found.1 "id" = field created.1 "id" /\
  field found.1 "email" = field created.1 "email" /\
  field found.1 "name" = field created.1 "name" /\
  field found.1 "age" = field created.1 "age" /\
  field created.1 "created_at" =
    Some (Str (time.Format_RFC3339 (Clock env (S (Ticks env))))) /\
  field found.1 "created_at" =
    Some (Str (time.Format_RFC3339 (Clock env (Ticks env)))).
Proof.
  intros Hv Hsel Hins Hid Hrow. cbv zeta.
  rewrite (CreateUser_created env q qs db' userID Hv Hsel Hins).
  cbn [fst snd].
  erewrite GetUser_found; [| exact Hid | exact Hrow].
  cbn [fst StatusCode field RespBody col_id col_email col_name col_age
       col_created_at].
  repeat split; vm_compute; reflexivity.
Qed.

(** C3. Registering [{a@b.com, password123, Ann, 30}] in an empty table
    while the clock passes midnight returns 201 with id 1, and the
    lookup of id 1 returns 200 with the same id, email, name and age;
    but the [created_at] of the 201 response is the second reading of
    the clock and the [created_at] found by the lookup is the first,
    stored one, and the two differ. *)
Theorem C3_created_at_differs_after_registration :
  let created := serve CreateUser examples.fresh (mkRequest (Filled examples.ann) ∅) in
  let found := serve GetUser created.2 (examples.lookup "1") in
  StatusCode created.1 = StatusCreated /\
  field created.1 "id" = Some (Int 1) /\
  StatusCode found.1 = StatusOK /\
  field found.1 "id" = field created.1 "id" /\
  field found.1 "email" = field created.1 "email" /\
  field found.1 "name" = field created.1 "name" /\
  field found.1 "age" = field created.1 "age" /\
  field created.1 "created_at" = Some (Str "2024-01-01T00:00:00Z") /\
  field found.1 "created_at" = Some (Str "2023-12-31T23:59:59Z") /\
  field found.1 "created_at" <> field created.1 "created_at".
Proof.
  cbv zeta. repeat split; try (vm_compute; reflexivity).
  vm_compute. discriminate.
Qed.

(** C4 (as the code has it).  For every registration that passes
    validation and the duplicate check, the INSERT carries the name
    exactly as it was submitted, untrimmed, next to the email, the
    derived password hash, the age and the clock reading; the trimmed
    name is used for the emptiness check only. *)
Theorem C4_inserted_name_is_as_submitted {DB : Type} `{Store DB}
    (env : World DB) (q : CreateRequest) (qs : gmap string (list string)) :
  valid q ->
  select_id_by_email (Db env) (Email q) = Failed ErrNoRows ->
  let env' := (serve CreateUser env (mkRequest (Filled q) qs)).2 in
  Sent env' =
    Sent env ++
    [SelectIDByEmail (Email q);
     InsertUser (Email q) (Sprintf_hashed (Password q)) (Name q) (Age q)
       (Clock env (Ticks env))] /\
  Db env' =
    (insert_user (Db env) (Email q) (Sprintf_hashed (Password q)) (Name q)
       (Age q) (Clock env (Ticks env))).1.
Proof.
  intros Hv Hsel. cbv zeta.
  destruct (insert_user (Db env) (Email q) (Sprintf_hashed (Password q))
              (Name q) (Age q) (Clock env (Ticks env)))
    as [db' [i | err]] eqn:Hins.
  - rewrite (CreateUser_created env q qs db' i Hv Hsel Hins). split; reflexivity.
  - rewrite (CreateUser_insert_fails env q qs db' err Hv Hsel Hins).
    split; reflexivity.
Qed.

(** Registering the name [" Ann "] sends it to the store with both
    spaces. *)
Lemma C4_witness :
  Sent (serve CreateUser examples.fresh
          (examples.register "a@b.com" "password123" " Ann " 30)).2 =
  [SelectIDByEmail "a@b.com";
   InsertUser "a@b.com" "hashed_password123" " Ann " 30
     (time.UTC 1704067199900000000)].
Proof.
  destruct (C4_inserted_name_is_as_submitted examples.fresh
              (mkCreateRequest "a@b.com" "password123" " Ann " 30) ∅)
    as [Hs _]; [vm_compute; reflexivity | reflexivity |].
  exact Hs.
Defined.

(** C4 as stated fails: a valid registration under the name [" Ann "]
    against an empty table inserts one row, and the name column of that
    row is [" Ann "], not the trimmed ["Ann"]. *)
Lemma C4_counterexample :
  let q := mkCreateRequest "a@b.com" "password123" " Ann " 30 in
  let env' := (serve CreateUser examples.fresh (mkRequest (Filled q) ∅)).2 in
  valid q /\
  select_id_by_email (Db examples.fresh) (Email q) = Failed ErrNoRows /\
  map memstore.name (memstore.rows (Db env')) = [" Ann "%string] /\
  strings.TrimSpace (Name q) = "Ann"%string /\
  map memstore.name (memstore.rows (Db env')) <> [strings.TrimSpace (Name q)].
Proof.
  cbv zeta. repeat split; try (vm_compute; reflexivity).
  vm_compute. discriminate.
Qed.

(** C5 (as the code has it).  A lookup without an [id] query parameter,
    or with an empty one, is answered with InvalidInput (400) and "User
    ID is required" without consulting the store; an id for which the
    store has no row with NotFound (404); an id for which the store
    returns a row with 200 and an object of exactly five fields: the
    stored id, email, name and age, and the stored [created_at] rendered
    by the RFC 3339 layout in the zone the timestamp carries.  That
    rendering is an ISO-8601 timestamp when the year of the stored
    timestamp has four digits and its zone is less than a day from
    UTC. *)
Theorem C5_lookup_outcomes {DB : Type} `{Store DB}
    (env : World DB) (r : Request) :
  let id := Values_Get (Query r) "id" in
  let out := serve GetUser env r in
  (id = ""%string ->
     invalid_input "User ID is required" out.1 /\ out.2 = env) /\
  (id <> ""%string ->
     select_user_by_id (Db env) id = Failed ErrNoRows ->
     StatusCode out.1 = StatusNotFound /\
     RespBody out.1 = [ {[ "error"%string := Str "User not found" ]} ]) /\
  (forall u : UserColumns,
     id <> ""%string ->
     select_user_by_id (Db env) id = Scanned u ->
     StatusCode out.1 = StatusOK /\
     RespBody out.1 =
       [ <[ "id"%string := Int (col_id u) ]>
         (<[ "email"%string := Str (col_email u) ]>
         (<[ "name"%string := Str (col_name u) ]>
         (<[ "age"%string := Int (col_age u) ]>
         {[ "created_at"%string :=
              Str (time.Format_RFC3339 (col_created_at u)) ]}))) ] /\
     (rfc3339_range (col_created_at u) ->
      iso8601 (time.Format_RFC3339 (col_created_at u)) = true)).
Proof.
  cbv zeta. split; [| split].
  - intros Hid. rewrite (GetUser_missing_id env r Hid). repeat split.
  - intros Hid Hsel. rewrite (GetUser_not_found env r Hid Hsel). split; reflexivity.
  - intros u Hid Hsel. rewrite (GetUser_found env r u Hid Hsel).
    split; [reflexivity |]. split; [reflexivity |].
    apply text_facts.Format_RFC3339_iso8601.
Qed.

(** The three outcomes on a table holding [x@y.com] under id 1, and the
    rendering of a timestamp that the store hands over in a zone three
    hours east of UTC. *)
Lemma C5_witness :
  invalid_input "User ID is required"
    (serve GetUser (examples.world_of examples.with_xy) examples.garbled).1 /\
  StatusCode
    (serve GetUser (examples.world_of examples.with_xy) (examples.lookup "7")).1
    = StatusNotFound /\
  RespBody
    (serve GetUser (examples.world_of examples.with_zoned_row)
       (examples.lookup "1")).1
    = [ <[ "id"%string := Int 1 ]>
        (<[ "email"%string := Str "x@y.com" ]>
        (<[ "name"%string := Str "Xavier" ]>
        (<[ "age"%string := Int 41 ]>
        {[ "created_at"%string :=
             Str (time.Format_RFC3339 examples.in_plus_three) ]}))) ] /\
  iso8601 (time.Format_RFC3339 examples.in_plus_three) = true.
Proof.
  pose proof (C5_lookup_outcomes (examples.world_of examples.with_xy)
                examples.garbled) as (H400 & _ & _).
  pose proof (C5_lookup_outcomes (examples.world_of examples.with_xy)
                (examples.lookup "7")) as (_ & H404 & _).
  pose proof (C5_lookup_outcomes (examples.world_of examples.with_zoned_row)
                (examples.lookup "1")) as (_ & _ & H200).
  cbv zeta in H400, H404, H200.
  destruct H400 as [H400 _]; [reflexivity |].
  destruct H404 as [H404 _]; [vm_compute; discriminate | reflexivity |].
  destruct (H200 (mkUserColumns 1 "x@y.com" "Xavier" 41 examples.in_plus_three))
    as (_ & Hbody & Hiso); [vm_compute; discriminate | reflexivity |].
  assert (Hrange : rfc3339_range examples.in_plus_three).
  { unfold rfc3339_range.
    change (time.Year examples.in_plus_three) with 2023.
    change (time.Offset examples.in_plus_three) with 10800. lia. }
  exact (conj H400 (conj H404 (conj Hbody (Hiso Hrange)))).
Defined.

(** C5 as stated fails: the store may hold a row created in the year
    10000.  Its lookup is answered 200 and the [created_at] field is
    [10000-01-01T00:00:00Z], a year of five digits, which is no ISO-8601
    timestamp. *)
Lemma C5_counterexample :
  let env := examples.world_of examples.with_late_row in
  let found := (serve GetUser env (examples.lookup "1")).1 in
  select_user_by_id (Db env) "1" =
    Scanned (mkUserColumns 1 "x@y.com" "Xavier" 41 examples.year_10000) /\
  StatusCode found = StatusOK /\
  field found "created_at" = Some (Str "10000-01-01T00:00:00Z") /\
  iso8601 "10000-01-01T00:00:00Z" = false.
Proof. cbv zeta. repeat split; vm_compute; reflexivity. Qed.

(** C6.  The length check counts bytes.  The password [parol1] has seven
    characters and thirteen bytes; a registration carrying it passes the
    length check, and every other check, and is answered 201. *)
Theorem C6_seven_characters_pass_length_check :
  utf8.RuneCountInString examples.parol1 = 7 /\
  len examples.parol1 = 13 /\
  validation_failure
    (Filled (mkCreateRequest "a@b.com" examples.parol1 "Ann" 30)) = None /\
  StatusCode
    (serve CreateUser examples.fresh
       (examples.register "a@b.com" examples.parol1 "Ann" 30)).1 = StatusCreated.
Proof. repeat split; vm_compute; reflexivity. Qed.

(** X3.  What the length check does decide: with a well-formed email, the
    request is rejected for its password exactly when the password has
    fewer than eight bytes; such a password also has fewer than eight
    characters, the converse fails. *)
Lemma password_check_counts_bytes {DB : Type} `{Store DB}
    (env : World DB) (q : CreateRequest) (qs : gmap string (list string)) :
  regexp.MatchString emailRegex (Email q) = true ->
  (invalid_input "Password must be at least 8 characters"
     (serve CreateUser env (mkRequest (Filled q) qs)).1
   <-> len (Password q) < 8) /\
  (len (Password q) < 8 -> utf8.RuneCountInString (Password q) < 8).
Proof.
  intros He. split.
  - rewrite CreateUser_invalid_input_iff. cbn [Body].
    unfold validation_failure, field_checks, first_rejection. rewrite He.
    destruct (Z.leb_spec 8 (len (Password q))) as [Hp | Hp].
    + split; [| lia].
      destruct (String.eqb (strings.TrimSpace (Name q)) ""); cbn [negb];
        [discriminate |].
      destruct ((18 <=? Age q) && (Age q <=? 120)); discriminate.
    + split; [intros _; exact Hp | reflexivity].
  - pose proof (text_facts.RuneCount_le_len (Password q)). lia.
Qed.

(** C7. The email check accepts exactly the strings of the shape
    local-part [@] domain [.] TLD with a TLD of at least two letters: a
    registration is rejected with InvalidInput "Invalid email format"
    if and only if its email does not have that shape.  In particular
    ["not-an-email"] is rejected with InvalidInput whatever the other
    fields are, and ["a@b.co"] passes the format check. *)
Theorem C7_email_check {DB : Type} `{Store DB}
    (env : World DB) (q : CreateRequest) (qs : gmap string (list string)) :
  (regexp.MatchString emailRegex (Email q) = true
   <-> address_shape (bytes (Email q))) /\
  (invalid_input "Invalid email format"
     (serve CreateUser env (mkRequest (Filled q) qs)).1
   <-> ~ address_shape (bytes (Email q))) /\
  (forall (p n : string) (a : Z),
     invalid_input "Invalid email format"
       (serve CreateUser env
          (mkRequest (Filled (mkCreateRequest "not-an-email" p n a)) qs)).1) /\
  (forall (p n : string) (a : Z),
     ~ invalid_input "Invalid email format"
         (serve CreateUser env
            (mkRequest (Filled (mkCreateRequest "a@b.co" p n a)) qs)).1).
Proof.
  assert (Hrej : forall q' : CreateRequest,
            validation_failure (Filled q') = Some "Invalid email format"%string
            <-> regexp.MatchString emailRegex (Email q') = false).
  { intros q'. unfold validation_failure, field_checks, first_rejection.
    destruct (regexp.MatchString emailRegex (Email q')); [| split; reflexivity].
    split; [| discriminate].
    destruct (8 <=? len (Password q')); [| discriminate].
    destruct (String.eqb (strings.TrimSpace (Name q')) ""); cbn [negb];
      [discriminate |].
    destruct ((18 <=? Age q') && (Age q' <=? 120)); discriminate. }
  split; [apply text_facts.MatchString_emailRegex |]. split; [| split].
  - rewrite CreateUser_invalid_input_iff. cbn [Body]. rewrite Hrej.
    rewrite <- text_facts.MatchString_emailRegex.
    destruct (regexp.MatchString emailRegex (Email q)); split; congruence.
  - intros p n a. apply CreateUser_invalid_input_iff. cbn [Body].
    apply Hrej. vm_compute. reflexivity.
  - intros p n a. rewrite CreateUser_invalid_input_iff. cbn [Body].
    rewrite Hrej. vm_compute. discriminate.
Qed.

(** The two addresses of the specification, and one with a one-letter
    TLD, against the empty table. *)
Lemma C7_witness :
  invalid_input "Invalid email format"
    (serve CreateUser examples.fresh
       (examples.register "not-an-email" "password123" "Ann" 30)).1 /\
  ~ invalid_input "Invalid email format"
      (serve CreateUser examples.fresh
         (examples.register "a@b.co" "password123" "Ann" 30)).1 /\
  ~ address_shape (bytes "a@b.c").
Proof.
  pose proof (C7_email_check examples.fresh
                (mkCreateRequest "a@b.c" "password123" "Ann" 30) ∅)
    as (Hshape & _ & Hbad & Hgood).
  refine (conj (Hbad _ _ _) (conj (Hgood _ _ _) _)).
  intros Hs. apply Hshape in Hs. vm_compute in Hs. discriminate Hs.
Defined.

(** C8.  The error paths never set the header.  A registration request
    whose body is not JSON is answered 400 with an empty header map, so
    the response does not carry [Content-Type: application/json]; the
    same holds for a lookup without an id. *)
Theorem C8_error_response_without_content_type {DB : Type} `{Store DB}
    (env : World DB) (qs : gmap string (list string)) :
  let rejected := (serve CreateUser env (mkRequest SyntaxError qs)).1 in
  let no_id := (serve GetUser env (mkRequest SyntaxError ∅)).1 in
  StatusCode rejected = StatusBadRequest /\
  RespHeader rejected = ∅ /\
  ~ json_content_type rejected /\
  StatusCode no_id = StatusBadRequest /\
  ~ json_content_type no_id.
Proof.
  cbv zeta.
  rewrite (CreateUser_rejects env (mkRequest SyntaxError qs) "Invalid JSON")
    by reflexivity.
  rewrite (GetUser_missing_id env (mkRequest SyntaxError ∅)) by reflexivity.
  unfold json_content_type. cbn [fst StatusCode RespHeader].
  rewrite lookup_empty. repeat split; discriminate.
Qed.

(** Where the header is set: the 201 and the 200 responses carry it. *)
Lemma success_responses_are_json {DB : Type} `{Store DB}
    (env : World DB) (r : Request) :
  (StatusCode (serve CreateUser env r).1 = StatusCreated ->
   json_content_type (serve CreateUser env r).1) /\
  (forall u, Values_Get (Query r) "id" <> ""%string ->
     select_user_by_id (Db env) (Values_Get (Query r) "id") = Scanned u ->
     json_content_type (serve GetUser env r).1).
Proof.
  split.
  - destruct (validation_failure (Body r)) as [msg |] eqn:Hv.
    { rewrite (CreateUser_rejects env r msg Hv). discriminate. }
    destruct r as [[| q] qs]; [discriminate |].
    destruct (select_id_by_email (Db env) (Email q)) as [i | [| text]] eqn:Hsel.
    + rewrite (CreateUser_conflict env q qs i Hv Hsel). discriminate.
    + destruct (insert_user (Db env) (Email q) (Sprintf_hashed (Password q))
                  (Name q) (Age q) (Clock env (Ticks env)))
        as [db' [i | err]] eqn:Hins.
      * rewrite (CreateUser_created env q qs db' i Hv Hsel Hins). intros _.
        apply lookup_singleton_eq.
      * rewrite (CreateUser_insert_fails env q qs db' err Hv Hsel Hins).
        discriminate.
    + rewrite (CreateUser_existence_check_fails env q qs text Hv Hsel).
      discriminate.
  - intros u Hid Hsel. rewrite (GetUser_found env r u Hid Hsel).
    apply lookup_singleton_eq.
Qed.

(** C9. Whatever the store reports, other than "no such row", in the
    existence check of a registration, in its insert, or in the query of
    a lookup, the answer is StorageFailure (500) and the whole response
    is a fixed one: the body is "Internal server error" (existence
    check, lookup) or "Failed to create user" (insert), whatever the
    text of the store's error.  The text goes to the log only. *)
Theorem C9_store_errors_answered_generically {DB : Type} `{Store DB}
    (env : World DB) :
  (forall (q : CreateRequest) (qs : gmap string (list string)) (text : string),
     valid q ->
     select_id_by_email (Db env) (Email q) = Failed (DriverError text) ->
     let out := serve CreateUser env (mkRequest (Filled q) qs) in
     out.1 = mkResponse StatusInternalServerError ∅
               [ {[ "error"%string := Str "Internal server error" ]} ] /\
     Log out.2 = Log env ++ [String.append "Database error: " text]) /\
  (forall (q : CreateRequest) (qs : gmap string (list string)) (db' : DB)
          (err : error),
     valid q ->
     select_id_by_email (Db env) (Email q) = Failed ErrNoRows ->
     insert_user (Db env) (Email q) (Sprintf_hashed (Password q)) (Name q)
       (Age q) (Clock env (Ticks env)) = (db', Failed err) ->
     let out := serve CreateUser env (mkRequest (Filled q) qs) in
     out.1 = mkResponse StatusInternalServerError ∅
               [ {[ "error"%string := Str "Failed to create user" ]} ] /\
     Log out.2 = Log env ++ [String.append "Database error: " (Error err)]) /\
  (forall (r : Request) (text : string),
     Values_Get (Query r) "id" <> ""%string ->
     select_user_by_id (Db env) (Values_Get (Query r) "id")
       = Failed (DriverError text) ->
     let out := serve GetUser env r in
     out.1 = mkResponse StatusInternalServerError ∅
               [ {[ "error"%string := Str "Internal server error" ]} ] /\
     Log out.2 = Log env ++ [String.append "Database error: " text]).
Proof.
  split; [| split].
  - intros q qs text Hv Hsel. cbv zeta.
    rewrite (CreateUser_existence_check_fails env q qs text Hv Hsel).
    split; reflexivity.
  - intros q qs db' err Hv Hsel Hins. cbv zeta.
    rewrite (CreateUser_insert_fails env q qs db' err Hv Hsel Hins).
    split; reflexivity.
  - intros r text Hid Hsel. cbv zeta.
    rewrite (GetUser_store_error env r text Hid Hsel).
    split; reflexivity.
Qed.

(** An unreachable database during the existence check and during a
    lookup, and a read-only one during the insert. *)
Lemma C9_witness :
  (serve CreateUser (examples.world_of examples.unreachable)
     (mkRequest (Filled examples.ann) ∅)).1
    = mkResponse StatusInternalServerError ∅
        [ {[ "error"%string := Str "Internal server error" ]} ] /\
  (serve CreateUser (examples.world_of examples.replica)
     (mkRequest (Filled examples.ann) ∅)).1
    = mkResponse StatusInternalServerError ∅
        [ {[ "error"%string := Str "Failed to create user" ]} ] /\
  (serve GetUser (examples.world_of examples.unreachable) (examples.lookup "1")).1
    = mkResponse StatusInternalServerError ∅
        [ {[ "error"%string := Str "Internal server error" ]} ].
Proof.
  pose proof (C9_store_errors_answered_generically
                (examples.world_of examples.unreachable)) as (Hcheck & _ & Hget).
  pose proof (C9_store_errors_answered_generically
                (examples.world_of examples.replica)) as (_ & Hins & _).
  destruct (Hcheck examples.ann ∅
              "dial tcp 10.0.0.5:5432: connect: connection refused"%string)
    as [H1 _]; [vm_compute; reflexivity | reflexivity |].
  destruct (Hins examples.ann ∅ examples.replica
              (DriverError "pq: cannot execute INSERT in a read-only transaction"))
    as [H2 _]; [vm_compute; reflexivity | reflexivity | reflexivity |].
  destruct (Hget (examples.lookup "1")
              "dial tcp 10.0.0.5:5432: connect: connection refused"%string)
    as [H3 _]; [vm_compute; discriminate | reflexivity |].
  exact (conj H1 (conj H2 H3)).
Defined.

(** C10. A lookup whose [id] is not empty is not validated any further:
    the raw string is what the SELECT is sent with, the answer is never
    InvalidInput (400), and when the store rejects the value the answer
    is StorageFailure (500) with "Internal server error". *)
Theorem C10_lookup_id_reaches_store_unvalidated {DB : Type} `{Store DB}
    (env : World DB) (r : Request) :
  Values_Get (Query r) "id" <> ""%string ->
  let id := Values_Get (Query r) "id" in
  let out := serve GetUser env r in
  Sent out.2 = Sent env ++ [SelectUserByID id] /\
  StatusCode out.1 <> StatusBadRequest /\
  (forall text : string,
     select_user_by_id (Db env) id = Failed (DriverError text) ->
     StatusCode out.1 = StatusInternalServerError /\
     RespBody out.1 = [ {[ "error"%string := Str "Internal server error" ]} ]).
Proof.
  intros Hid. cbv zeta.
  destruct (select_user_by_id (Db env) (Values_Get (Query r) "id"))
    as [u | [| text]] eqn:Hsel.
  - rewrite (GetUser_found env r u Hid Hsel).
    repeat split; discriminate.
  - rewrite (GetUser_not_found env r Hid Hsel).
    repeat split; discriminate.
  - rewrite (GetUser_store_error env r text Hid Hsel).
    repeat split; try discriminate.
Qed.

(** The id ["abc"] is no integer; the table rejects it and the lookup
    answers 500, having sent ["abc"] as it came. *)
Lemma C10_witness :
  memstore.parse_int "abc" = None /\
  Sent (serve GetUser examples.fresh (examples.lookup "abc")).2
    = [SelectUserByID "abc"] /\
  StatusCode (serve GetUser examples.fresh (examples.lookup "abc")).1
    = StatusInternalServerError.
Proof.
  destruct (C10_lookup_id_reaches_store_unvalidated examples.fresh
              (examples.lookup "abc")) as (Hsent & _ & H500);
    [vm_compute; discriminate |].
  destruct (H500 "pq: invalid input syntax for type integer"%string)
    as [Hs _]; [reflexivity |].
  exact (conj eq_refl (conj Hsent Hs)).
Defined.

(** * Further properties of the handlers *)

(** ** White space and [strings.TrimSpace] *)

Module trim_facts.
Import GoString observations.

(** A rune takes at least one byte of a non-empty input. *)
Lemma DecodeRune_width a s : (1 <= (utf8.DecodeRune (a :: s)).2)%nat.
Proof.
  unfold utf8.DecodeRune.
  repeat match goal with
         | |- context [if ?b then _ else _] => destruct b
         | |- context [match ?x with _ => _ end] => destruct x
         end; cbn [snd]; lia.
Qed.

Lemma runes_from_bytes s : forall skip,
  Forall (fun c : Z * list ascii => c.2 <> []) (utf8.runes_from skip s).
Proof.
  induction s as [| a s IH]; intros skip; [constructor |].
  destruct skip as [| k]; cbn [utf8.runes_from]; [| apply IH].
  pose proof (DecodeRune_width a s) as Hw.
  destruct (utf8.DecodeRune (a :: s)) as [r w]. cbn [snd] in Hw.
  constructor; [| apply IH].
  destruct w as [| w]; [lia | discriminate].
Qed.

Lemma TrimLeft_nil rs :
  strings.TrimLeft rs = [] <->
  forallb (fun c : Z * list ascii => strings.IsSpace c.1) rs = true.
Proof.
  induction rs as [| [r bs] rs IH]; cbn [strings.TrimLeft forallb fst].
  - split; reflexivity.
  - destruct (strings.IsSpace r); cbn [andb]; [exact IH |].
    split; discriminate.
Qed.

(** What [TrimLeft] keeps is a tail of its input that starts with a rune
    that is no white space. *)
Lemma TrimLeft_kept rs c rest :
  strings.TrimLeft rs = c :: rest ->
  strings.IsSpace c.1 = false /\ exists dropped, rs = dropped ++ c :: rest.
Proof.
  induction rs as [| [r bs] rs IH]; cbn [strings.TrimLeft]; [discriminate |].
  destruct (strings.IsSpace r) eqn:Hr.
  - intros Hk. destruct (IH Hk) as (Hc & dropped & ->).
    split; [exact Hc |]. exists ((r, bs) :: dropped). reflexivity.
  - intros [= <- <-]. split; [exact Hr |]. exists []. reflexivity.
Qed.

Lemma TrimLeft_app_solid front c rest :
  strings.IsSpace c.1 = false ->
  strings.TrimLeft (front ++ c :: rest) <> [].
Proof.
  intros Hc. induction front as [| [r bs] front IH]; cbn [app strings.TrimLeft].
  - destruct c as [r bs]. cbn [fst] in Hc. rewrite Hc. discriminate.
  - destruct (strings.IsSpace r); [exact IH | discriminate].
Qed.

Lemma string_of_bytes_nil l : string_of_list_ascii l = ""%string -> l = [].
Proof. destruct l; [reflexivity | discriminate]. Qed.

(** [TrimSpace] returns the empty string exactly on blank input. *)
Lemma TrimSpace_empty_iff s :
  strings.TrimSpace s = ""%string <-> blank s = true.
Proof.
  unfold strings.TrimSpace, blank. rewrite <- TrimLeft_nil.
  pose proof (runes_from_bytes (bytes s) 0) as Hne. fold (utf8.runes s) in Hne.
  split.
  - intros He%string_of_bytes_nil.
    destruct (strings.TrimLeft (utf8.runes s)) as [| c rest] eqn:Hl;
      [reflexivity | exfalso].
    destruct (TrimLeft_kept _ _ _ Hl) as (Hc & dropped & Hrs).
    assert (Hin : forall x, In x (strings.TrimRight (c :: rest)) -> x.2 <> []).
    { intros x Hx. unfold strings.TrimRight in Hx. apply in_rev in Hx.
      destruct (strings.TrimLeft (rev (c :: rest))) as [| y tail] eqn:Hr;
        [destruct Hx |].
      destruct (TrimLeft_kept _ _ _ Hr) as (_ & dr & Hrev).
      assert (Hx' : In x (c :: rest)).
      { apply in_rev. rewrite Hrev. apply in_or_app. right. exact Hx. }
      rewrite List.Forall_forall in Hne. apply Hne. rewrite Hrs.
      apply in_or_app. right. exact Hx'. }
    assert (Hsome : strings.TrimRight (c :: rest) <> []).
    { unfold strings.TrimRight. cbn [rev]. intros Hnil.
      apply (f_equal (@rev _)) in Hnil. rewrite rev_involutive in Hnil.
      exact (TrimLeft_app_solid (rev rest) c [] Hc Hnil). }
    destruct (strings.TrimRight (c :: rest)) as [| x tail]; [congruence |].
    cbn [map concat] in He. apply app_eq_nil in He as [Hx _].
    exact (Hin x (or_introl eq_refl) Hx).
  - intros ->. reflexivity.
Qed.

End trim_facts.

(** ** The field checks one by one *)

Import observations.

(** X1.  The age check (lines 55-59): once the email, the password and the
    name have passed, the registration is rejected with "Age must be
    between 18 and 120" exactly when the age is below 18 or above 120;
    18 and 120 themselves pass. *)
Theorem age_check_bounds {DB : Type} `{Store DB}
    (env : World DB) (q : CreateRequest) (qs : gmap string (list string)) :
  regexp.MatchString emailRegex (Email q) = true ->
  8 <= len (Password q) ->
  blank (Name q) = false ->
  (invalid_input "Age must be between 18 and 120"
     (serve CreateUser env (mkRequest (Filled q) qs)).1
   <-> Age q < 18 \/ 120 < Age q).
Proof.
  intros He Hp Hn. rewrite CreateUser_invalid_input_iff. cbn [Body].
  unfold validation_failure, field_checks, first_rejection. rewrite He.
  apply Z.leb_le in Hp. rewrite Hp.
  destruct (String.eqb_spec (strings.TrimSpace (Name q)) "") as [Ht | Ht].
  { apply trim_facts.TrimSpace_empty_iff in Ht. congruence. }
  cbn [negb].
  destruct ((18 <=? Age q) && (Age q <=? 120)) eqn:Ha.
  - apply andb_true_iff in Ha. split; [discriminate | lia].
  - apply andb_false_iff in Ha. split; [intros _; lia | reflexivity].
Qed.

(** Ages 17 and 121 are turned away, 18 and 120 are not. *)
Lemma age_check_bounds_witness :
  invalid_input "Age must be between 18 and 120"
    (serve CreateUser examples.fresh
       (examples.register "a@b.com" "password123" "Ann" 17)).1 /\
  ~ invalid_input "Age must be between 18 and 120"
      (serve CreateUser examples.fresh
         (examples.register "a@b.com" "password123" "Ann" 18)).1 /\
  ~ invalid_input "Age must be between 18 and 120"
      (serve CreateUser examples.fresh
         (examples.register "a@b.com" "password123" "Ann" 120)).1 /\
  invalid_input "Age must be between 18 and 120"
    (serve CreateUser examples.fresh
       (examples.register "a@b.com" "password123" "Ann" 121)).1.
Proof.
  pose proof (fun a Hp =>
    age_check_bounds examples.fresh
      (mkCreateRequest "a@b.com" "password123" "Ann" a) ∅
      eq_refl Hp eq_refl) as Hage.
  assert (Hp : 8 <= len "password123") by (vm_compute; discriminate).
  refine (conj (proj2 (Hage 17 Hp) _)
         (conj (fun Hi => _ (proj1 (Hage 18 Hp) Hi))
         (conj (fun Hi => _ (proj1 (Hage 120 Hp) Hi))
               (proj2 (Hage 121 Hp) _)))); cbn [Age]; lia.
Defined.

(** X2.  The name check (lines 49-53): once the email and the password have
    passed, the registration is rejected with "Name is required" exactly
    when the name is blank: empty, or white space from end to end,
    Unicode white space included. *)
Theorem name_check_rejects_blank_names {DB : Type} `{Store DB}
    (env : World DB) (q : CreateRequest) (qs : gmap string (list string)) :
  regexp.MatchString emailRegex (Email q) = true ->
  8 <= len (Password q) ->
  (invalid_input "Name is required"
     (serve CreateUser env (mkRequest (Filled q) qs)).1
   <-> blank (Name q) = true).
Proof.
  intros He Hp. rewrite CreateUser_invalid_input_iff. cbn [Body].
  unfold validation_failure, field_checks, first_rejection. rewrite He.
  apply Z.leb_le in Hp. rewrite Hp.
  rewrite <- trim_facts.TrimSpace_empty_iff.
  destruct (String.eqb_spec (strings.TrimSpace (Name q)) "") as [Ht | Ht];
    cbn [negb].
  - split; [intros _; exact Ht | reflexivity].
  - split; [| intros Ht'; destruct (Ht Ht')].
    destruct ((18 <=? Age q) && (Age q <=? 120)); discriminate.
Qed.

(** A name of a space, a tab and a no-break space (bytes 194, 160) is
    rejected; the name ["Ann"] is not. *)
Lemma name_check_rejects_blank_names_witness :
  invalid_input "Name is required"
    (serve CreateUser examples.fresh
       (examples.register "a@b.com" "password123"
          (string_of_list_ascii (map ascii_of_nat [32; 9; 194; 160]%nat)) 30)).1 /\
  ~ invalid_input "Name is required"
      (serve CreateUser examples.fresh
         (examples.register "a@b.com" "password123" "Ann" 30)).1.
Proof.
  assert (Hp : 8 <= len "password123") by (vm_compute; discriminate).
  pose proof (fun n =>
    name_check_rejects_blank_names examples.fresh
      (mkCreateRequest "a@b.com" "password123" n 30) ∅ eq_refl Hp) as Hname.
  refine (conj (proj2 (Hname _) _) (fun Hi => _ (proj1 (Hname _) Hi)));
    vm_compute; [reflexivity | discriminate].
Defined.

(** The bytes a well-formed email is made of. *)
Lemma address_bytes (p : ascii -> bool) (l : list ascii) :
  forallb p l = true ->
  (forall a, p a = true ->
     Ascii.eqb "@" a = false /\ (byte_val a <? utf8.RuneSelf) = true) ->
  List.filter (Ascii.eqb "@") l = [] /\
  forallb (fun a => byte_val a <? utf8.RuneSelf) l = true.
Proof.
  intros Hl Hp. induction l as [| a l IH]; [split; reflexivity |].
  cbn [forallb] in Hl. apply andb_true_iff in Hl as [Ha Hl].
  destruct (Hp a Ha) as [Hat Hlow]. destruct (IH Hl) as [IH1 IH2].
  cbn [List.filter forallb]. rewrite Hat, Hlow, IH2. split; [exact IH1 | reflexivity].
Qed.

Lemma local_char_plain a :
  local_char a = true ->
  Ascii.eqb "@" a = false /\ (byte_val a <? utf8.RuneSelf) = true.
Proof. destruct a as [[] [] [] [] [] [] [] []]; vm_compute; intuition discriminate. Qed.

Lemma domain_char_plain a :
  domain_char a = true ->
  Ascii.eqb "@" a = false /\ (byte_val a <? utf8.RuneSelf) = true.
Proof. destruct a as [[] [] [] [] [] [] [] []]; vm_compute; intuition discriminate. Qed.

Lemma is_letter_plain a :
  is_letter a = true ->
  Ascii.eqb "@" a = false /\ (byte_val a <? utf8.RuneSelf) = true.
Proof. destruct a as [[] [] [] [] [] [] [] []]; vm_compute; intuition discriminate. Qed.

(** X4.  The email check (lines 36-41): an email that passes contains
    exactly one [@], is plain ASCII and is at least six bytes long. *)
Theorem accepted_email_is_plain (e : string) :
  regexp.MatchString emailRegex e = true ->
  occurrences "@" e = 1%nat /\ ascii_only e = true /\ 6 <= len e.
Proof.
  intros (l & d & t & Hs & Hl & Hlf & Hd & Hdf & Ht & Htf)%text_facts.MatchString_emailRegex.
  destruct (address_bytes _ _ Hlf local_char_plain) as [Hl1 Hl2].
  destruct (address_bytes _ _ Hdf domain_char_plain) as [Hd1 Hd2].
  destruct (address_bytes _ _ Htf is_letter_plain) as [Ht1 Ht2].
  unfold occurrences, ascii_only, len.
  rewrite <- text_facts.bytes_length, Hs.
  repeat split.
  - rewrite List.filter_app. cbn [List.filter]. rewrite List.filter_app.
    cbn [List.filter].
    rewrite Hl1, Hd1, Ht1. reflexivity.
  - rewrite forallb_app. cbn [forallb]. rewrite forallb_app. cbn [forallb].
    rewrite Hl2, Hd2, Ht2. reflexivity.
  - rewrite length_app. cbn [List.length]. rewrite length_app. cbn [List.length].
    destruct l; [congruence |]. destruct d; [congruence |]. cbn [List.length]. lia.
Qed.

Lemma accepted_email_is_plain_witness :
  occurrences "@" "a@b.co" = 1%nat /\ ascii_only "a@b.co" = true /\
  6 <= len "a@b.co".
Proof. exact (accepted_email_is_plain "a@b.co" eq_refl). Defined.

(** ** What a call sends, changes and logs *)

(** Splits a call of [CreateUser] into its five paths. *)
Ltac CreateUser_cases env r :=
  let msg := fresh "msg" in
  let Hv := fresh "Hv" in
  let q := fresh "q" in
  let qs := fresh "qs" in
  let Hsel := fresh "Hsel" in
  let Hins := fresh "Hins" in
  destruct (validation_failure (Body r)) as [msg |] eqn:Hv;
  [ rewrite (CreateUser_rejects env r msg Hv)
  | destruct r as [[| q] qs]; [discriminate Hv |];
    destruct (select_id_by_email (Db env) (Email q)) as [? | [| ?]] eqn:Hsel;
    [ rewrite (CreateUser_conflict env q qs _ Hv Hsel)
    | destruct (insert_user (Db env) (Email q) (Sprintf_hashed (Password q))
                  (Name q) (Age q) (Clock env (Ticks env)))
        as [? [? | ?]] eqn:Hins;
      [ rewrite (CreateUser_created env q qs _ _ Hv Hsel Hins)
      | rewrite (CreateUser_insert_fails env q qs _ _ Hv Hsel Hins) ]
    | rewrite (CreateUser_existence_check_fails env q qs _ Hv Hsel) ] ].

(** Splits a call of [GetUser] into its four paths. *)
Ltac GetUser_cases env r :=
  let Hid := fresh "Hid" in
  let Hsel := fresh "Hsel" in
  destruct (String.eqb_spec (Values_Get (Query r) "id") "") as [Hid | Hid];
  [ rewrite (GetUser_missing_id env r Hid)
  | destruct (select_user_by_id (Db env) (Values_Get (Query r) "id"))
      as [? | [| ?]] eqn:Hsel;
    [ rewrite (GetUser_found env r _ Hid Hsel)
    | rewrite (GetUser_not_found env r Hid Hsel)
    | rewrite (GetUser_store_error env r _ Hid Hsel) ] ].

Lemma append_world_log {DB : Type} (env : World DB) : Sent env = Sent env ++ [].
Proof. symmetry. apply app_nil_r. Qed.

(** X5.  [CreateUser] and the store (lines 61-87): an INSERT is sent exactly
    when the payload is valid and the existence check reports no row,
    and then it follows that check and carries the submitted fields.  In
    every other case the database is left as it was and at most the
    SELECT of the existence check is sent. *)
Theorem CreateUser_inserts_iff_valid_and_new {DB : Type} `{Store DB}
    (env : World DB) (r : Request) :
  let env' := (serve CreateUser env r).2 in
  exists stmts : list Statement,
    Sent env' = Sent env ++ stmts /\
    ((existsb is_insert stmts = false /\
      Db env' = Db env /\
      (stmts = [] \/ exists e, stmts = [SelectIDByEmail e]) /\
      ~ (exists q, Body r = Filled q /\ valid q /\
           select_id_by_email (Db env) (Email q) = Failed ErrNoRows))
     \/
     (exists q, Body r = Filled q /\ valid q /\
        select_id_by_email (Db env) (Email q) = Failed ErrNoRows /\
        stmts = [SelectIDByEmail (Email q);
                 InsertUser (Email q) (Sprintf_hashed (Password q)) (Name q)
                   (Age q) (Clock env (Ticks env))])).
Proof.
  cbv zeta. CreateUser_cases env r; cbn [snd Sent Db].
  - exists []. split; [apply append_world_log |]. left.
    repeat split; auto.
    intros (q & Hb & Hq & _). unfold valid in Hq. rewrite Hb in Hv. congruence.
  - exists [SelectIDByEmail (Email q)]. split; [reflexivity |]. left.
    repeat split; eauto.
    intros (q' & [= <-] & _ & Hno). cbn [Db] in Hno. congruence.
  - eexists. split; [reflexivity |]. right. exists q. auto.
  - eexists. split; [reflexivity |]. right. exists q. auto.
  - exists [SelectIDByEmail (Email q)]. split; [reflexivity |]. left.
    repeat split; eauto.
    intros (q' & [= <-] & _ & Hno). cbn [Db] in Hno. congruence.
Qed.

(** What validity says about the fields of a payload. *)
Lemma valid_row (q : CreateRequest) (qs : gmap string (list string)) :
  valid q ->
  address_shape (bytes (Email q)) /\ 18 <= Age q <= 120 /\
  blank (Name q) = false /\
  exists p : string,
    Body (mkRequest (Filled q) qs) =
      Filled (mkCreateRequest (Email q) p (Name q) (Age q)) /\
    Sprintf_hashed (Password q) = String.append "hashed_" p /\ 8 <= len p.
Proof.
  intros (He & Hp & Hn & Ha)%valid_inv.
  apply text_facts.MatchString_emailRegex in He.
  apply orb_false_iff in Ha as [Ha1 Ha2]. rewrite Z.gtb_ltb in Ha2.
  repeat split; try assumption; try lia.
  - destruct (blank (Name q)) eqn:Hbl; [| reflexivity].
    apply trim_facts.TrimSpace_empty_iff in Hbl. rewrite Hbl in Hn. discriminate.
  - exists (Password q). destruct q. repeat split. lia.
Qed.

(** X6.  Every row [CreateUser] hands to the store (lines 36-59, 75-81) meets
    the constraints of the checks: an email of the address shape, an age
    from 18 to 120, a name that is not blank, and under [password_hash]
    the submitted password of at least eight bytes, in clear, behind the
    prefix [hashed_]. *)
Theorem inserted_rows_meet_the_checks {DB : Type} `{Store DB}
    (env : World DB) (r : Request) (stmts : list Statement)
    (e h n : string) (a : Z) (c : time.Time) :
  Sent (serve CreateUser env r).2 = Sent env ++ stmts ->
  In (InsertUser e h n a c) stmts ->
  address_shape (bytes e) /\ 18 <= a <= 120 /\ blank n = false /\
  c = Clock env (Ticks env) /\
  exists p : string,
    Body r = Filled (mkCreateRequest e p n a) /\
    h = String.append "hashed_" p /\ 8 <= len p.
Proof.
  intros Hs Hin. revert Hs.
  CreateUser_cases env r; cbn [snd Sent]; intros Hs.
  - rewrite (append_world_log env) in Hs at 1.
    apply app_inv_head in Hs. subst stmts. destruct Hin.
  - apply app_inv_head in Hs. subst stmts.
    destruct Hin as [Hin | []]. discriminate.
  - apply app_inv_head in Hs. subst stmts.
    destruct Hin as [Hin | [Hin | []]]; [discriminate |].
    injection Hin as <- <- <- <- <-.
    destruct (valid_row q qs Hv) as (Hshape & Hage & Hname & Hpw).
    exact (conj Hshape (conj Hage (conj Hname (conj eq_refl Hpw)))).
  - apply app_inv_head in Hs. subst stmts.
    destruct Hin as [Hin | [Hin | []]]; [discriminate |].
    injection Hin as <- <- <- <- <-.
    destruct (valid_row q qs Hv) as (Hshape & Hage & Hname & Hpw).
    exact (conj Hshape (conj Hage (conj Hname (conj eq_refl Hpw)))).
  - apply app_inv_head in Hs. subst stmts.
    destruct Hin as [Hin | []]. discriminate.
Qed.

Lemma inserted_rows_meet_the_checks_witness :
  address_shape (bytes "a@b.com") /\ 18 <= 30 <= 120 /\ blank "Ann" = false /\
  time.UTC 1704067199900000000 = examples.clock 0 /\
  exists p : string,
    Body (mkRequest (Filled examples.ann) ∅) =
      Filled (mkCreateRequest "a@b.com" p "Ann" 30) /\
    "hashed_password123"%string = String.append "hashed_" p /\ 8 <= len p.
Proof.
  apply (inserted_rows_meet_the_checks examples.fresh
           (mkRequest (Filled examples.ann) ∅)
           [SelectIDByEmail "a@b.com";
            InsertUser "a@b.com" "hashed_password123" "Ann" 30
              (time.UTC 1704067199900000000)]).
  - reflexivity.
  - right. left. reflexivity.
Defined.

(** ** The shape of the responses *)

(** X7.  [CreateUser] (lines 30-100) always answers with one JSON object and
    one of four statuses.  With 201 the object has no ["error"] field,
    carries the success message, and the response has the JSON
    content type; with 400, 409 or 500 the object is an ["error"] field
    and nothing else, and the handler has set no header at all. *)
Theorem CreateUser_response_shape {DB : Type} `{Store DB}
    (env : World DB) (r : Request) :
  let resp := (serve CreateUser env r).1 in
  exists obj : gmap string Value,
    RespBody resp = [obj] /\
    ((StatusCode resp = StatusCreated /\
      json_content_type resp /\
      obj !! "error"%string = None /\
      obj !! "message"%string = Some (Str "User created successfully"))
     \/
     ((StatusCode resp = StatusBadRequest \/ StatusCode resp = StatusConflict \/
       StatusCode resp = StatusInternalServerError) /\
      RespHeader resp = ∅ /\
      exists msg : string, obj = {[ "error"%string := Str msg ]})).
Proof.
  cbv zeta. CreateUser_cases env r; cbn [fst RespBody StatusCode RespHeader];
    eexists; (split; [reflexivity |]).
  - right. split; [auto | split; [reflexivity | eexists; reflexivity]].
  - right. split; [auto | split; [reflexivity | eexists; reflexivity]].
  - left. split; [reflexivity |]. split; [apply lookup_singleton_eq |].
    split; vm_compute; reflexivity.
  - right. split; [auto | split; [reflexivity | eexists; reflexivity]].
  - right. split; [auto | split; [reflexivity | eexists; reflexivity]].
Qed.

(** X8.  The 201 response (lines 89-96) has exactly the six fields [id],
    [email], [name], [age], [created_at] and [message]: the id the store
    returned, and the email, name and age as submitted.  Neither the
    password nor its hash is among them. *)
Theorem created_response_fields {DB : Type} `{Store DB}
    (env : World DB) (r : Request) :
  StatusCode (serve CreateUser env r).1 = StatusCreated ->
  exists (q : CreateRequest) (obj : gmap string Value) (db' : DB) (userID : Z),
    Body r = Filled q /\
    insert_user (Db env) (Email q) (Sprintf_hashed (Password q)) (Name q)
      (Age q) (Clock env (Ticks env)) = (db', Scanned userID) /\
    RespBody (serve CreateUser env r).1 = [obj] /\
    dom obj = list_to_set ["id"; "email"; "name"; "age"; "created_at";
                           "message"]%string /\
    obj !! "id"%string = Some (Int userID) /\
    obj !! "email"%string = Some (Str (Email q)) /\
    obj !! "name"%string = Some (Str (Name q)) /\
    obj !! "age"%string = Some (Int (Age q)) /\
    obj !! "password"%string = None /\
    obj !! "password_hash"%string = None.
Proof.
  CreateUser_cases env r; cbn [fst StatusCode RespBody]; try discriminate.
  intros _. exists q. do 3 eexists.
  split; [reflexivity |]. split; [exact Hins |]. split; [reflexivity |].
  split; [rewrite dom_list_to_map_L; reflexivity |].
  repeat split; vm_compute; reflexivity.
Qed.

Lemma created_response_fields_witness :
  exists (q : CreateRequest) (obj : gmap string Value),
    RespBody (serve CreateUser examples.fresh
                (mkRequest (Filled examples.ann) ∅)).1 = [obj] /\
    obj !! "email"%string = Some (Str (Email q)) /\
    obj !! "password"%string = None.
Proof.
  destruct (created_response_fields examples.fresh
              (mkRequest (Filled examples.ann) ∅))
    as (q & obj & _ & _ & _ & _ & Hbody & _ & _ & Hemail & _ & _ & Hpw & _);
    [reflexivity |].
  exact (ex_intro _ q (ex_intro _ obj (conj Hbody (conj Hemail Hpw)))).
Defined.

(** X9.  [GetUser] (lines 103-142) always answers with one JSON object and
    one of four statuses.  With 200 the object has exactly the five
    fields [id], [email], [name], [age] and [created_at] and the response
    has the JSON content type; with 400, 404 or 500 the object is an
    ["error"] field and nothing else, and the handler has set no header
    at all. *)
Theorem GetUser_response_shape {DB : Type} `{Store DB}
    (env : World DB) (r : Request) :
  let resp := (serve GetUser env r).1 in
  exists obj : gmap string Value,
    RespBody resp = [obj] /\
    ((StatusCode resp = StatusOK /\
      json_content_type resp /\
      dom obj = list_to_set ["id"; "email"; "name"; "age"; "created_at"]%string)
     \/
     ((StatusCode resp = StatusBadRequest \/ StatusCode resp = StatusNotFound \/
       StatusCode resp = StatusInternalServerError) /\
      RespHeader resp = ∅ /\
      exists msg : string, obj = {[ "error"%string := Str msg ]})).
Proof.
  cbv zeta. GetUser_cases env r; cbn [fst RespBody StatusCode RespHeader];
    eexists; (split; [reflexivity |]).
  - right. split; [auto | split; [reflexivity | eexists; reflexivity]].
  - left. split; [reflexivity |]. split; [apply lookup_singleton_eq |].
    rewrite dom_list_to_map_L. reflexivity.
  - right. split; [auto | split; [reflexivity | eexists; reflexivity]].
  - right. split; [auto | split; [reflexivity | eexists; reflexivity]].
Qed.

(** ** Logging, reading and the query string *)

(** X10.  [CreateUser] writes to the log (lines 64, 83) exactly when it
    answers 500: one line, "Database error: " followed by the text of
    the error the store returned, be it the error of the existence check
    (other than "no rows") or, after an existence check that found no
    row, the error of the INSERT.  Every other answer leaves the log as
    it was. *)
Theorem CreateUser_logs_iff_storage_failure {DB : Type} `{Store DB}
    (env : World DB) (r : Request) :
  let out := serve CreateUser env r in
  (StatusCode out.1 <> StatusInternalServerError /\ Log out.2 = Log env) \/
  (StatusCode out.1 = StatusInternalServerError /\
   exists (q : CreateRequest) (err : error),
     Body r = Filled q /\
     Log out.2 = Log env ++ [String.append "Database error: " (Error err)] /\
     ((select_id_by_email (Db env) (Email q) = Failed err /\ err <> ErrNoRows)
      \/
      (select_id_by_email (Db env) (Email q) = Failed ErrNoRows /\
       exists db' : DB,
         insert_user (Db env) (Email q) (Sprintf_hashed (Password q)) (Name q)
           (Age q) (Clock env (Ticks env)) = (db', Failed err)))).
Proof.
  cbv zeta. CreateUser_cases env r; cbn [fst snd StatusCode Log Body].
  - left. split; [discriminate | reflexivity].
  - left. split; [discriminate | reflexivity].
  - left. split; [discriminate | reflexivity].
  - right. split; [reflexivity |]. exists q. eexists.
    split; [reflexivity |]. split; [reflexivity |].
    right. split; [exact Hsel |]. eexists. exact Hins.
  - right. split; [reflexivity |]. exists q. eexists (DriverError _).
    split; [reflexivity |]. split; [reflexivity |].
    left. split; [exact Hsel | discriminate].
Qed.

(** X11.  [GetUser] (lines 103-142) only reads.  Whatever the request, the
    database is left as it was and the clock is not read; no statement
    is sent for an empty id, and for any other id the one SELECT by id
    and nothing else.  The log grows, by one "Database error: " line,
    exactly when the answer is 500. *)
Theorem GetUser_only_reads {DB : Type} `{Store DB}
    (env : World DB) (r : Request) :
  let out := serve GetUser env r in
  let id := Values_Get (Query r) "id" in
  Db out.2 = Db env /\ Ticks out.2 = Ticks env /\
  ((id = ""%string /\ Sent out.2 = Sent env) \/
   (id <> ""%string /\ Sent out.2 = Sent env ++ [SelectUserByID id])) /\
  ((StatusCode out.1 <> StatusInternalServerError /\ Log out.2 = Log env) \/
   (StatusCode out.1 = StatusInternalServerError /\
    exists text : string,
      Log out.2 = Log env ++ [String.append "Database error: " text])).
Proof.
  cbv zeta. GetUser_cases env r; cbn [fst snd StatusCode Log Db Ticks Sent].
  - repeat split; [left; auto | left; split; [discriminate | reflexivity]].
  - repeat split; [right; auto | left; split; [discriminate | reflexivity]].
  - repeat split; [right; auto | left; split; [discriminate | reflexivity]].
  - repeat split; [right; auto |]. right. split; [reflexivity | eauto].
Qed.

(** X12.  [GetUser] reads the request through [Query().Get("id")] only (line
    104): of several [id] values the first one counts, and neither the
    other query parameters nor the body change the outcome. *)
Theorem GetUser_reads_first_id_only {DB : Type} `{Store DB}
    (env : World DB) (b b' : Decoded) (q : gmap string (list string))
    (v : string) (rest : list string) :
  q !! "id"%string = Some (v :: rest) ->
  serve GetUser env (mkRequest b q) =
  serve GetUser env (mkRequest b' {[ "id"%string := [v] ]}).
Proof.
  intros Hq. unfold serve, GetUser. cbn [Query]. cbv zeta.
  assert (E1 : Values_Get q "id" = v) by (unfold Values_Get; rewrite Hq; reflexivity).
  assert (E2 : Values_Get ({[ "id"%string := [v] ]} : gmap string (list string)) "id" = v).
  { unfold Values_Get. rewrite lookup_singleton_eq. reflexivity. }
  rewrite E1, E2. reflexivity.
Qed.

(** [?id=1&id=7&verbose=yes] with a body is looked up as [?id=1]. *)
Lemma GetUser_reads_first_id_only_witness :
  serve GetUser (examples.world_of examples.with_xy)
    (mkRequest (Filled examples.ann)
       (<[ "id"%string := ["1"; "7"]%string ]>
          {[ "verbose"%string := ["yes"%string] ]})) =
  serve GetUser (examples.world_of examples.with_xy) (examples.lookup "1").
Proof.
  apply (GetUser_reads_first_id_only _ _ SyntaxError _ "1" ["7"%string]).
  apply lookup_insert_eq.
Defined.

(** Registration, then lookup, on the in-memory table: the lookup of
    id 1 repeats what the 201 response said about id, email, name and
    age. *)
Lemma lookup_after_registration_witness :
  field (serve GetUser
           (serve CreateUser examples.fresh (mkRequest (Filled examples.ann) ∅)).2
           (examples.lookup "1")).1 "email" =
  field (serve CreateUser examples.fresh (mkRequest (Filled examples.ann) ∅)).1
        "email" /\
  field (serve GetUser
           (serve CreateUser examples.fresh (mkRequest (Filled examples.ann) ∅)).2
           (examples.lookup "1")).1 "created_at" =
  Some (Str (time.Format_RFC3339 (examples.clock 0))).
Proof.
  destruct (lookup_after_registration examples.fresh examples.ann ∅
              (memstore.mkTable
                 [memstore.mkRow 1 "a@b.com" "hashed_password123" "Ann" 30
                    (examples.clock 0)] 2 None false)
              1 (examples.lookup "1"))
    as (_ & _ & _ & Hemail & _ & _ & _ & Hat);
    [reflexivity | reflexivity | reflexivity | vm_compute; discriminate
    | reflexivity |].
  exact (conj Hemail Hat).
Defined.

(** Seven ASCII bytes are turned away by the length check. *)
Lemma password_check_counts_bytes_witness :
  invalid_input "Password must be at least 8 characters"
    (serve CreateUser examples.fresh
       (examples.register "a@b.com" "1234567" "Ann" 30)).1 /\
  utf8.RuneCountInString "1234567" < 8.
Proof.
  destruct (password_check_counts_bytes examples.fresh
              (mkCreateRequest "a@b.com" "1234567" "Ann" 30) ∅ eq_refl)
    as [Hiff Hshort].
  assert (Hlen : len "1234567" < 8) by (vm_compute; reflexivity).
  exact (conj (proj2 Hiff Hlen) (Hshort Hlen)).
Defined.
